(** * Google Ads MCP server: token cache and GAQL execution

    A shallow embedding of [ads_mcp/oauth_client.py] and
    [ads_mcp/tools/api.py].  Python values are modelled by inductive types,
    exceptions by a sum type, dictionaries by [gmap] (or by association
    lists where they sit inside a Python value), and the outside world
    (credentials file, OAuth endpoint, clock, Google Ads service) by records
    of outcomes that the functions consume.  What the client libraries
    compute ([hash], [proto.Message.to_dict], [get_nested_attr]) is a
    parameter of the development.

    The first part holds the definitions, module by module; the second part
    holds their properties, in modules named after the first. *)

From Stdlib Require Import ZArith Ascii String List Bool Lia.
From stdpp Require Import base option gmap strings pretty.

Local Open Scope string_scope.
Local Open Scope Z_scope.

Set Warnings "-register-all".

(** ** Python string primitives *)

Module PyStr.
(** [needle in hay] on [str]: [needle] occurs at some position of [hay]. *)
Fixpoint str_in (needle hay : string) : bool :=
  String.prefix needle hay ||
  match hay with
  | EmptyString => false
  | String _ rest => str_in needle rest
  end.

(** [s.endswith(suffix)]. *)
Fixpoint endswith (s suffix : string) : bool :=
  String.eqb s suffix ||
  match s with
  | EmptyString => false
  | String _ rest => endswith rest suffix
  end.

(** [s.replace(old, new)] for a non-empty [old]: occurrences are replaced
    from left to right and do not overlap.  [skip] counts the characters of
    a matched occurrence that are still to be dropped. *)
Fixpoint replace_from (skip : nat) (old new s : string) : string :=
  match s with
  | EmptyString => EmptyString
  | String c rest =>
      match skip with
      | S k => replace_from k old new rest
      | O =>
          if String.prefix old s
          then new +:+ replace_from (Nat.pred (String.length old)) old new rest
          else String c (replace_from O old new rest)
      end
  end.

Definition replace (old new s : string) : string := replace_from O old new s.

(** [sep.join(parts)]. *)
Fixpoint join (sep : string) (parts : list string) : string :=
  match parts with
  | nil => EmptyString
  | p :: nil => p
  | p :: ps => p +:+ sep +:+ join sep ps
  end.

(** [s.lower()] on ASCII letters. *)
Definition lower_ascii (c : ascii) : ascii :=
  let n := nat_of_ascii c in
  if (65 <=? n)%nat && (n <=? 90)%nat then ascii_of_nat (n + 32) else c.

Fixpoint lower (s : string) : string :=
  match s with
  | EmptyString => EmptyString
  | String c rest => String (lower_ascii c) (lower rest)
  end.

Definition newline : string := String (ascii_of_nat 10) EmptyString.

(** [s[:n]]. *)
Definition take (n : nat) (s : string) : string := String.substring 0 n s.

End PyStr.

(** ** [ads_mcp/tools/api.py]: query preprocessing *)

Module Gaql.
Import PyStr.

Definition directive : string := "omit_unselected_resource_names".

Definition preprocess_gaql (query : string) : string :=
  if negb (str_in "omit_unselected_resource_names" query) then
    if str_in "PARAMETERS" query && str_in "include_drafts" query then
      query +:+ " omit_unselected_resource_names=true"
    else
      query +:+ " PARAMETERS omit_unselected_resource_names=true"
  else query.

End Gaql.

(** ** Python values, exceptions and effects *)

Module Py.
(** The values that JSON and YAML documents decode to; numbers are
    integers. *)
Inductive pyval : Type :=
| PNone
| PBool (b : bool)
| PInt (n : Z)
| PStr (s : string)
| PList (items : list pyval)
| PDict (items : list (string * pyval)).

(** [bool(v)]. *)
Definition truthy (v : pyval) : bool :=
  match v with
  | PNone => false
  | PBool b => b
  | PInt n => negb (n =? 0)
  | PStr s => negb (String.eqb s EmptyString)
  | PList items => match items with nil => false | _ => true end
  | PDict items => match items with nil => false | _ => true end
  end.

(** One entry of [GoogleAdsFailure.errors].  An attribute whose access
    raises [AttributeError] is [None]; otherwise the attribute carries its
    [str()] rendering (and, for [trigger], its truth value). *)
Record rendered_attr : Type :=
  { attr_truthy : bool; attr_str : string }.

Record GoogleAdsError : Type :=
  { message : string;
    location : option string;
    error_code : option string;
    trigger : option rendered_attr }.

(** Instances of [Exception].  Signals that derive from [BaseException]
    only ([KeyboardInterrupt], [SystemExit]) are outside the model. *)
Inductive exn : Type :=
| AttributeError (msg : string)
| TypeError (msg : string)
| ValueError (msg : string)
| OSError (msg : string)
| FileNotFoundError (msg : string)
| RequestException (msg : string)
| GoogleAdsException (errors : list GoogleAdsError)
| RuntimeError (msg : string) (cause : option exn)
| PlainException (msg : string).

Definition exc (A : Type) : Type := (exn + A)%type.

Definition is_AttributeError (e : exn) : bool :=
  match e with AttributeError _ => true | _ => false end.

Fixpoint assoc_get (key : string) (items : list (string * pyval)) : option pyval :=
  match items with
  | nil => None
  | (k, v) :: rest => if String.eqb k key then Some v else assoc_get key rest
  end.

(** [d.get(key, default)]; only a [dict] has the method. *)
Definition dict_get (d : pyval) (key : string) (default : pyval) : exc pyval :=
  match d with
  | PDict items => inr (from_option id default (assoc_get key items))
  | _ => inl (AttributeError "get")
  end.

(** The operand of [float + x]: numbers and booleans, anything else is a
    [TypeError]. *)
Definition as_number (v : pyval) : exc Z :=
  match v with
  | PInt n => inr n
  | PBool b => inr (if b then 1 else 0)
  | _ => inl (TypeError "unsupported operand type(s) for +")
  end.

(** Sequencing and [try]/[except] for code that does not touch the
    client. *)
Definition exc_bind {A B} (x : exc A) (k : A -> exc B) : exc B :=
  match x with
  | inl e => inl e
  | inr a => k a
  end.

(** [try: body except <classes>: handler]: [catches] tells which
    exceptions the clause names. *)
Definition exc_try {A} (catches : exn -> bool) (body : exc A) (handler : exn -> exc A)
  : exc A :=
  match body with
  | inl e => if catches e then handler e else inl e
  | inr a => inr a
  end.

Definition any_Exception (e : exn) : bool := true.

(** [try: return body except Exception: pass], followed by [return default]. *)
Definition exc_try_default {A} (body : exc A) (default : A) : A :=
  match body with
  | inl _ => default
  | inr a => a
  end.

Definition is_GoogleAdsException (e : exn) : bool :=
  match e with GoogleAdsException _ => true | _ => false end.

End Py.

(** ** [ads_mcp/oauth_client.py]: [DynamicOAuthClient] *)

Module OAuthClient.
Import PyStr Py.

(** A value of [self.token_cache]. *)
Record cached_token : Type :=
  { access_token : pyval;
    expires_at : Z;
    refresh_token_hash : string }.

(** What the process does to the outside world, in order. *)
Inductive event : Type :=
| CredentialsLookup (path : string)
| CredentialsRead (path : string)
| TokenRequest (url : string) (form : list (string * pyval)).

(** The client object: its cache, and the log of outside-world actions. *)
Record client : Type :=
  { token_cache : gmap string cached_token;
    trace : list event }.

(** A [requests.Response]. *)
Record response : Type :=
  { status_code : Z;
    json : exc pyval;
    text : string }.

(** The outside world as one call sees it: the process environment, the
    installation root, [os.path.isfile], reading and parsing the credentials
    file ([open], [read], [yaml.safe_load]), [requests.post], and the two
    readings of [time.time()], one at the cache check and one when the entry
    is stored.  Clock readings are whole seconds.  The two imports inside the
    [try] and the calls to [logger] are taken to succeed and leave no mark. *)
Record world : Type :=
  { environ : gmap string string;
    ROOT_DIR : string;
    isfile : string -> bool;
    read_yaml : string -> exc pyval;
    requests_post : string -> list (string * pyval) -> exc response;
    time_at_check : Z;
    time_at_store : Z }.

(** Computations over the client that may raise. *)
Definition M (A : Type) : Type := client -> exc A * client.

Definition ret {A} (a : A) : M A := fun c => (inr a, c).

Definition raise {A} (e : exn) : M A := fun c => (inl e, c).

Definition lift {A} (x : exc A) : M A := fun c => (x, c).

Definition bind {A B} (m : M A) (k : A -> M B) : M B :=
  fun c => match m c with
           | (inl e, c') => (inl e, c')
           | (inr a, c') => k a c'
           end.

Definition try_except {A} (body : M A) (handler : exn -> M A) : M A :=
  fun c => match body c with
           | (inl e, c') => handler e c'
           | (inr a, c') => (inr a, c')
           end.

Definition emit (ev : event) : M unit :=
  fun c => (inr tt, {| token_cache := token_cache c; trace := (trace c ++ [ev])%list |}).

Definition cache_get (key : string) : M (option cached_token) :=
  fun c => (inr (token_cache c !! key), c).

Definition cache_set (key : string) (v : cached_token) : M unit :=
  fun c => (inr tt, {| token_cache := <[key := v]> (token_cache c); trace := trace c |}).

Notation "'let*' x ':=' m 'in' k" := (bind m (fun x => k))
  (at level 10, x name, m at level 100, k at level 200, only parsing).

Notation "m ';;' k" := (bind m (fun _ => k))
  (at level 100, k at level 200, right associativity, only parsing).

Definition token_url : string := "https://oauth2.googleapis.com/token".

Definition token_form (client_id client_secret : pyval) (refresh_token : string)
  : list (string * pyval) :=
  [ ("client_id", client_id);
    ("client_secret", client_secret);
    ("refresh_token", PStr refresh_token);
    ("grant_type", PStr "refresh_token") ].

Definition credentials_path (w : world) : string :=
  from_option id (ROOT_DIR w +:+ "/google-ads.yaml")
              (environ w !! "GOOGLE_ADS_CREDENTIALS").

(** The exchange reaches the provider and gets [resp] back. *)
Definition provider_answers (w : world) (refresh_token : string) (resp : response)
  : Prop :=
  exists ads_config client_id client_secret,
    read_yaml w (credentials_path w) = inr ads_config
    /\ dict_get ads_config "client_id" PNone = inr client_id
    /\ dict_get ads_config "client_secret" PNone = inr client_secret
    /\ requests_post w token_url (token_form client_id client_secret refresh_token)
       = inr resp.

(** The ways an exchange fails. *)
Inductive exchange_failure (w : world) (refresh_token : string) : Prop :=
| credentials_file_missing :
    isfile w (credentials_path w) = false ->
    exchange_failure w refresh_token
| credentials_file_unreadable (e : exn) :
    read_yaml w (credentials_path w) = inl e ->
    exchange_failure w refresh_token
| credentials_not_a_mapping (ads_config : pyval) (e : exn) :
    read_yaml w (credentials_path w) = inr ads_config ->
    dict_get ads_config "client_id" PNone = inl e ->
    exchange_failure w refresh_token
| client_id_missing (ads_config client_id : pyval) :
    read_yaml w (credentials_path w) = inr ads_config ->
    dict_get ads_config "client_id" PNone = inr client_id ->
    truthy client_id = false ->
    exchange_failure w refresh_token
| client_secret_missing (ads_config client_secret : pyval) :
    read_yaml w (credentials_path w) = inr ads_config ->
    dict_get ads_config "client_secret" PNone = inr client_secret ->
    truthy client_secret = false ->
    exchange_failure w refresh_token
| request_io_error (ads_config client_id client_secret : pyval) (e : exn) :
    read_yaml w (credentials_path w) = inr ads_config ->
    dict_get ads_config "client_id" PNone = inr client_id ->
    dict_get ads_config "client_secret" PNone = inr client_secret ->
    requests_post w token_url (token_form client_id client_secret refresh_token)
    = inl e ->
    exchange_failure w refresh_token
| response_not_200 (resp : response) :
    provider_answers w refresh_token resp ->
    status_code resp <> 200 ->
    exchange_failure w refresh_token
| response_body_unreadable (resp : response) (e : exn) :
    provider_answers w refresh_token resp ->
    json resp = inl e ->
    exchange_failure w refresh_token
| response_not_a_mapping (resp : response) (token_data : pyval) (e : exn) :
    provider_answers w refresh_token resp ->
    json resp = inr token_data ->
    dict_get token_data "access_token" PNone = inl e ->
    exchange_failure w refresh_token
| access_token_missing (resp : response) (token_data token : pyval) :
    provider_answers w refresh_token resp ->
    json resp = inr token_data ->
    dict_get token_data "access_token" PNone = inr token ->
    truthy token = false ->
    exchange_failure w refresh_token
| expires_in_not_a_number (resp : response) (token_data expires_in : pyval) (e : exn) :
    provider_answers w refresh_token resp ->
    json resp = inr token_data ->
    dict_get token_data "expires_in" (PInt 3600) = inr expires_in ->
    as_number expires_in = inl e ->
    exchange_failure w refresh_token.

Section WithHash.

(** Python's built-in [hash] on [str]. *)
Context (hash : string -> Z).

Definition _get_cache_key_for_refresh_token (refresh_token : string) : string :=
  let token_hash := Z.abs (hash refresh_token) in
  "refresh_token_" +:+ pretty token_hash.

(** Lines 43-47: the cached token, when the key is present and the entry
    has not expired. *)
Definition cache_hit (w : world) (cache_key : string) : M (option pyval) :=
  let* cached := cache_get cache_key in
  match cached with
  | Some cached_data =>
      if expires_at cached_data >? time_at_check w
      then ret (Some (access_token cached_data))
      else ret None
  | None => ret None
  end.

(** Lines 50-98: the body of the [try]. *)
Definition exchange_body (w : world) (refresh_token : string) : M pyval :=
  let path := credentials_path w in
  emit (CredentialsLookup path);;
  if negb (isfile w path) then ret PNone else
  emit (CredentialsRead path);;
  let* ads_config := lift (read_yaml w path) in
  let* client_id := lift (dict_get ads_config "client_id" PNone) in
  let* client_secret := lift (dict_get ads_config "client_secret" PNone) in
  if negb (truthy client_id) || negb (truthy client_secret) then ret PNone else
  let form := token_form client_id client_secret refresh_token in
  emit (TokenRequest token_url form);;
  let* resp := lift (requests_post w token_url form) in
  if status_code resp =? 200 then
    let* token_data := lift (json resp) in
    let* access_token := lift (dict_get token_data "access_token" PNone) in
    let* expires_in := lift (dict_get token_data "expires_in" (PInt 3600)) in
    if truthy access_token then
      let cache_key := _get_cache_key_for_refresh_token refresh_token in
      let* seconds := lift (as_number expires_in) in
      cache_set cache_key
        {| access_token := access_token;
           expires_at := time_at_store w + seconds - 60;
           refresh_token_hash := take 10 refresh_token |};;
      ret access_token
    else ret PNone
  else ret PNone.

(** Lines 49-102: [try: ... except Exception: return None]. *)
Definition exchange (w : world) (refresh_token : string) : M pyval :=
  try_except (exchange_body w refresh_token) (fun _ => ret PNone).

Definition _generate_access_token_from_refresh
           (w : world) (refresh_token : string) : M pyval :=
  let cache_key := _get_cache_key_for_refresh_token refresh_token in
  let* hit := cache_hit w cache_key in
  match hit with
  | Some token => ret token
  | None => exchange w refresh_token
  end.

(** The cache holds no entry for the token that is still valid at [now]. *)
Definition no_unexpired_entry (c : client) (refresh_token : string) (now : Z) : Prop :=
  match token_cache c !! _get_cache_key_for_refresh_token refresh_token with
  | Some entry => expires_at entry <= now
  | None => True
  end.

End WithHash.

(** *** A concrete client and world *)

Definition demo_hash (s : string) : Z := Z.of_nat (String.length s) - 100.

Definition demo_config : pyval :=
  PDict [ ("developer_token", PStr "dev-token");
          ("client_id", PStr "demo.apps.googleusercontent.com");
          ("client_secret", PStr "demo-secret") ].

Definition demo_answer : response :=
  {| status_code := 200;
     json := inr (PDict [ ("access_token", PStr "ya29.fresh");
                          ("expires_in", PInt 3599) ]);
     text := EmptyString |}.

Definition demo_world (now : Z) : world :=
  {| environ := ∅;
     ROOT_DIR := "/srv/ads_mcp";
     isfile := fun path => String.eqb path "/srv/ads_mcp/google-ads.yaml";
     read_yaml := fun _ => inr demo_config;
     requests_post := fun _ _ => inr demo_answer;
     time_at_check := now;
     time_at_store := now + 1 |}.

Definition offline_world (now : Z) : world :=
  {| environ := ∅;
     ROOT_DIR := "/srv/ads_mcp";
     isfile := fun _ => false;
     read_yaml := fun _ => inl (FileNotFoundError "google-ads.yaml");
     requests_post := fun _ _ => inl (RequestException "unreachable");
     time_at_check := now;
     time_at_store := now |}.

Definition fresh_client : client := {| token_cache := ∅; trace := [] |}.

Definition stale_entry : cached_token :=
  {| access_token := PStr "ya29.stale";
     expires_at := 500;
     refresh_token_hash := "1//0demo-r" |}.

Definition stale_client : client :=
  {| token_cache :=
       {[ _get_cache_key_for_refresh_token demo_hash "1//0demo-refresh" := stale_entry ]};
     trace := [] |}.

End OAuthClient.

(** ** [ads_mcp/tools/api.py]: request headers and value formatting *)

Module Api.
Import PyStr Py OAuthClient.

(** [a or b] on [str | None]. *)
Definition py_or (a b : option string) : option string :=
  match a with
  | Some s => if String.eqb s EmptyString then b else a
  | None => b
  end.

(** [headers] is the outcome of FastMCP's [get_http_headers()]: a [dict]
    from header names to values, or an exception. *)
Definition get_refresh_token_from_headers (get_http_headers : exc (gmap string string))
  : option string :=
  exc_try_default
    (match get_http_headers with
     | inl e => inl e
     | inr headers =>
         if bool_decide (headers = ∅) then inr None
         else inr (py_or (headers !! "x-oauth-refresh-token")
                         (headers !! "X-OAuth-Refresh-Token"))
     end)
    None.

(** The library function [fastmcp.server.dependencies.get_http_headers]
    (imported on line 26) on the headers of the request being served:
    every name is lower-cased, the names of the library's set
    [exclude_headers] are left out, and the pairs are stored in a [dict],
    so that a name sent twice keeps its last value. *)
Definition FastMCP_get_http_headers (exclude_headers : list string)
           (request_headers : list (string * string)) : gmap string string :=
  fold_left
    (fun headers item =>
       let lower_name := lower (fst item) in
       if existsb (String.eqb lower_name) exclude_headers then headers
       else <[lower_name := snd item]> headers)
    request_headers ∅.

(** [name] is a spelling of the refresh-token header. *)
Definition names_refresh_token (name : string) : bool :=
  String.eqb (lower name) "x-oauth-refresh-token".

(** *** Values of response fields *)

(** A [proto.Enum] member: what reading [.name] gives, and [int(value)]. *)
Record proto_enum : Type :=
  { enum_name : exc string;
    enum_number : Z }.

Section Formatting.

(** [proto.Message] instances and the library's [proto.Message.to_dict]. *)
Context (Message : Type) (to_dict : Message -> exc (list (string * pyval))).

(** What [get_nested_attr] can hand back: a message, an enum member, or
    any other Python value. *)
Inductive value : Type :=
| VMessage (m : Message)
| VEnum (e : proto_enum)
| VPlain (v : pyval).

(** The f-string of line 183, which formats [value] and the exception
    caught: the line, or the exception that [str()] of one of them
    raises. *)
Context (debug_line : value -> exn -> exc string).

(** Lines 168-185.  The handler builds the line it prints before it
    returns the value: an exception raised there leaves [format_value].
    The write to [sys.stderr] is left out. *)
Definition format_value (v : value) : exc value :=
  exc_try any_Exception
    (match v with
     | VMessage m =>
         exc_bind (to_dict m) (fun d => inr (VPlain (PDict d)))
     | VEnum e =>
         exc_try is_AttributeError
           (exc_bind (enum_name e) (fun name => inr (VPlain (PStr name))))
           (fun _ => inr (VPlain (PInt (enum_number e))))
     | VPlain _ => inr v
     end)
    (fun e => exc_bind (debug_line v e) (fun _ => inr v)).

(** *** [execute_gaql] *)

Context (hash : string -> Z).

(** Rows of a response and the client library's [get_nested_attr]. *)
Context (Row : Type) (get_nested_attr : Row -> string -> exc value).

(** One [SearchGoogleAdsStreamResponse]. *)
Record batch : Type :=
  { field_mask_paths : list string;
    results : list Row }.

(** What iterating over the result of [search_stream] yields: the batches
    delivered, then the exception that ends the iteration, if any (an
    exception raised by the call itself ends it before the first
    batch). *)
Record stream : Type :=
  { delivered : list batch;
    failure : option exn }.

Record GoogleAdsClient : Type :=
  { login_customer_id : option string;
    search_stream : option string -> string -> string -> stream }.

(** The world of one tool call.  [get_ads_client] (lines 57-129) and the
    service lookup are taken as an outcome; [str_errors] is [str()] of
    the failure's error list. *)
Record api_world : Type :=
  { get_http_headers : exc (gmap string string);
    oauth : OAuthClient.world;
    get_ads_client : pyval -> exc GoogleAdsClient;
    str_errors : list GoogleAdsError -> string }.

Definition python_field_path (field_path : string) : string :=
  replace ".type" ".type_" field_path.

(** Lines 238-252: one iteration of the loop over the field mask. *)
Definition process_field (row : Row) (row_data : gmap string value)
           (field_path : string) : exc (gmap string value) :=
  exc_try any_Exception
    (exc_bind (get_nested_attr row (python_field_path field_path)) (fun raw_value =>
     exc_bind (format_value raw_value) (fun formatted_value =>
     inr (<[field_path := formatted_value]> row_data))))
    (fun e => inl e).

Fixpoint process_fields (row : Row) (paths : list string)
         (row_data : gmap string value) : exc (gmap string value) :=
  match paths with
  | [] => inr row_data
  | field_path :: rest =>
      exc_bind (process_field row row_data field_path) (process_fields row rest)
  end.

Fixpoint process_rows (paths : list string) (rows : list Row)
         (output : list (gmap string value)) : exc (list (gmap string value)) :=
  match rows with
  | [] => inr output
  | row :: rest =>
      exc_bind (process_fields row paths ∅) (fun row_data =>
      process_rows paths rest (output ++ [row_data])%list)
  end.

Fixpoint process_batches (batches : list batch)
         (output : list (gmap string value)) : exc (list (gmap string value)) :=
  match batches with
  | [] => inr output
  | b :: rest =>
      exc_bind (process_rows (field_mask_paths b) (results b) output)
               (process_batches rest)
  end.

(** Lines 229-263: the loops over the stream. *)
Definition drain (s : stream) : exc (list (gmap string value)) :=
  exc_bind (process_batches (delivered s) []) (fun output =>
  match failure s with
  | Some e => inl e
  | None => inr output
  end).

(** Lines 268-281: the lines one sub-error contributes. *)
Definition error_lines (error : GoogleAdsError) : list string :=
  (["Error: " +:+ message error]
   ++ match location error with
      | Some l => ["  Location: " +:+ l]
      | None => []
      end
   ++ match error_code error with
      | Some code => ["  Error Code: " +:+ code]
      | None => []
      end
   ++ match trigger error with
      | Some t => if attr_truthy t then ["  Trigger: " +:+ attr_str t] else []
      | None => []
      end)%list.

Definition error_details (errors : list GoogleAdsError) : list string :=
  fold_left (fun details error => (details ++ error_lines error)%list) errors [].

Definition full_error (w : api_world) (errors : list GoogleAdsError) : string :=
  match error_details errors with
  | [] => str_errors w errors
  | details => join newline details
  end.

Definition failure_errors (e : exn) : list GoogleAdsError :=
  match e with
  | GoogleAdsException errors => errors
  | _ => []
  end.

(** Lines 227-285: [try: ... except GoogleAdsException as e: ...]. *)
Definition flatten (w : api_world) (s : stream) : exc (list (gmap string value)) :=
  exc_try is_GoogleAdsException (drain s)
    (fun e => inl (RuntimeError (full_error w (failure_errors e)) (Some e))).

Definition str_truthy (s : option string) : bool :=
  match s with
  | Some s => negb (String.eqb s EmptyString)
  | None => false
  end.

(** The [DEBUG] lines written to [sys.stderr], and the [json.dumps] of the
    first row that only feeds one of them (lines 256-261, inside its own
    [try]), are left out. *)
Definition execute_gaql (w : api_world) (query customer_id : string)
           (login : option string) : M (list (gmap string value)) :=
  let query := Gaql.preprocess_gaql query in
  match get_refresh_token_from_headers (get_http_headers w) with
  | Some refresh_token =>
      if String.eqb refresh_token EmptyString then
        raise (PlainException "Missing X-OAuth-Refresh-Token header for authentication")
      else
        let* access_token :=
          _generate_access_token_from_refresh hash (oauth w) refresh_token in
        if negb (truthy access_token) then
          raise (PlainException "Failed to generate access token from refresh token")
        else
          let* ads_client := lift (get_ads_client w access_token) in
          let login_id :=
            if str_truthy login then login else login_customer_id ads_client in
          lift (flatten w (search_stream ads_client login_id query customer_id))
  | None =>
      raise (PlainException "Missing X-OAuth-Refresh-Token header for authentication")
  end.

(** The call authenticates, obtains a client and is handed the stream
    [s]; the client is left as [c']. *)
Definition reaches_search (w : api_world) (query customer_id : string)
           (login : option string) (c c' : client) (s : stream) : Prop :=
  exists refresh_token access_token ads_client,
    get_refresh_token_from_headers (get_http_headers w) = Some refresh_token
    /\ refresh_token <> EmptyString
    /\ _generate_access_token_from_refresh hash (oauth w) refresh_token c
       = (inr access_token, c')
    /\ truthy access_token = true
    /\ get_ads_client w access_token = inr ads_client
    /\ s = search_stream ads_client
             (if str_truthy login then login else login_customer_id ads_client)
             (Gaql.preprocess_gaql query) customer_id.

(** The field path resolves on the row and the value found is formatted
    without an exception. *)
Definition processes (row : Row) (field_path : string) : Prop :=
  exists raw_value formatted_value,
    get_nested_attr row (python_field_path field_path) = inr raw_value
    /\ format_value raw_value = inr formatted_value.

(** Everything that is processed before field [p] of [row] resolves and
    is formatted. *)
Definition first_failure (bs1 : list batch) (b : batch) (rs1 : list Row)
           (row : Row) (ps1 : list string) : Prop :=
  (forall b' row' p', In b' bs1 -> In row' (results b') ->
                      In p' (field_mask_paths b') -> processes row' p')
  /\ (forall row' p', In row' rs1 -> In p' (field_mask_paths b) -> processes row' p')
  /\ (forall p', In p' ps1 -> processes row p').

End Formatting.

Arguments VMessage {Message} m.
Arguments VEnum {Message} e.
Arguments VPlain {Message} v.
Arguments field_mask_paths {Row} b.
Arguments results {Row} b.
Arguments delivered {Row} s.
Arguments failure {Row} s.
Arguments login_customer_id {Row} g.
Arguments search_stream {Row} g _ _ _.
Arguments get_http_headers {Row} a.
Arguments oauth {Row} a.
Arguments get_ads_client {Row} a _.
Arguments str_errors {Row} a _.
Arguments full_error {Row} w errors.

(** *** A concrete response *)

(** A message is given by what [to_dict] makes of it. *)
Definition demo_message : Type := option (list (string * pyval)).

Definition demo_to_dict (m : demo_message) : exc (list (string * pyval)) :=
  match m with
  | Some d => inr d
  | None => inl (TypeError "to_dict")
  end.

(** The line can be built for every value, except for the message that
    cannot be converted to a dictionary either. *)
Definition demo_debug_line (v : value demo_message) (e : exn) : exc string :=
  match v with
  | VMessage None => inl (TypeError "__str__")
  | _ => inr "DEBUG: format_value error"
  end.

(** A row is given by the attribute paths that resolve on it. *)
Definition demo_row : Type := list (string * value demo_message).

Fixpoint demo_get_nested_attr (row : demo_row) (path : string)
  : exc (value demo_message) :=
  match row with
  | [] => inl (AttributeError path)
  | (attr, v) :: rest =>
      if String.eqb attr path then inr v else demo_get_nested_attr rest path
  end.

Definition enabled : proto_enum := {| enum_name := inr "ENABLED"; enum_number := 2 |}.

Definition unnamed : proto_enum :=
  {| enum_name := inl (AttributeError "name"); enum_number := 7 |}.


Definition full_row : demo_row :=
  [ ("campaign.id", VPlain (PInt 42));
    ("campaign.name", VPlain (PStr "Brand"));
    ("campaign.status", VEnum enabled) ].

Definition short_row : demo_row :=
  [ ("campaign.id", VPlain (PInt 43)) ].




Definition demo_batch : batch demo_row :=
  {| field_mask_paths := ["campaign.id"; "campaign.name"];
     results := [full_row; short_row] |}.

Definition demo_api_world (s : stream demo_row) : api_world demo_row :=
  {| get_http_headers := inr {[ "x-oauth-refresh-token" := "1//0demo-refresh" ]};
     oauth := demo_world 1000;
     get_ads_client := fun _ =>
       inr {| login_customer_id := None; search_stream := fun _ _ _ => s |};
     str_errors := fun _ => "[]" |}.

Definition demo_query : string := "SELECT campaign.id, campaign.name FROM campaign".

Definition demo_run (s : stream demo_row) :=
  execute_gaql demo_message demo_to_dict demo_debug_line demo_hash demo_row demo_get_nested_attr
    (demo_api_world s) demo_query "1234567890" None fresh_client.

(** The client after the token of the demo call has been cached. *)
Definition demo_after : client :=
  snd (_generate_access_token_from_refresh demo_hash (demo_world 1000)
         "1//0demo-refresh" fresh_client).

Definition quota_error : GoogleAdsError :=
  {| message := "Too many requests.";
     location := Some EmptyString;
     error_code := Some "quota_error: RESOURCE_EXHAUSTED";
     trigger := Some {| attr_truthy := false; attr_str := EmptyString |} |}.

Definition query_error : GoogleAdsError :=
  {| message := "Unrecognized field.";
     location := Some "field_path_elements { field_name: 'query' }";
     error_code := Some "query_error: UNRECOGNIZED_FIELD";
     trigger := Some {| attr_truthy := true; attr_str := "string_value: 'campaign.nme'" |} |}.

End Api.

(** ** State threading for the rest of the code *)

Module Eff.
Import Py.

(** A computation over a state [S] that returns or raises; the state
    reached is kept in both cases. *)
Definition ST (S A : Type) : Type := S -> exc A * S.

Definition st_ret {S A} (a : A) : ST S A := fun s => (inr a, s).

Definition st_raise {S A} (e : exn) : ST S A := fun s => (inl e, s).

Definition st_lift {S A} (x : exc A) : ST S A := fun s => (x, s).

Definition st_bind {S A B} (m : ST S A) (k : A -> ST S B) : ST S B :=
  fun s => match m s with
           | (inl e, s') => (inl e, s')
           | (inr a, s') => k a s'
           end.

(** [try: body except Exception as e: handler]. *)
Definition st_try {S A} (body : ST S A) (handler : exn -> ST S A) : ST S A :=
  fun s => match body s with
           | (inl e, s') => handler e s'
           | (inr a, s') => (inr a, s')
           end.

Definition st_get {S} : ST S S := fun s => (inr s, s).

Definition st_modify {S} (f : S -> S) : ST S unit := fun s => (inr tt, f s).

(** Run a computation on a part of the state. *)
Definition st_zoom {S T A} (get : T -> S) (set : T -> S -> T) (m : ST S A) : ST T A :=
  fun t => match m (get t) with
           | (r, s') => (r, set t s')
           end.

Notation "'let!' x ':=' m 'in' k" := (st_bind m (fun x => k))
  (at level 10, x name, m at level 100, k at level 200, only parsing).

Notation "m ';;!' k" := (st_bind m (fun _ => k))
  (at level 100, k at level 200, right associativity, only parsing).

End Eff.

(** ** [ads_mcp/oauth_client.py]: the rest of [DynamicOAuthClient] *)

Module OAuthInstance.
Import PyStr Py OAuthClient Eff.

(** One POST to the external token API: url, headers, JSON payload and
    the timeout in seconds. *)
Record external_request : Type :=
  { ext_url : string;
    ext_headers : list (string * string);
    ext_json : pyval;
    ext_timeout : Z }.

(** The whole object: the cache and trace of [client], the three settings
    read by [__init__], the process-wide token, and the log of requests to
    the external API. *)
Record instance : Type :=
  { core : client;
    oauth_api_url : option string;
    oauth_api_token : option string;
    google_ads_account_id : option string;
    _access_token : pyval;
    _token_expires_at : option Z;
    external_requests : list external_request }.

Definition set_core (i : instance) (c : client) : instance :=
  {| core := c;
     oauth_api_url := oauth_api_url i;
     oauth_api_token := oauth_api_token i;
     google_ads_account_id := google_ads_account_id i;
     _access_token := _access_token i;
     _token_expires_at := _token_expires_at i;
     external_requests := external_requests i |}.

Definition set_access_token (v : pyval) (i : instance) : instance :=
  {| core := core i;
     oauth_api_url := oauth_api_url i;
     oauth_api_token := oauth_api_token i;
     google_ads_account_id := google_ads_account_id i;
     _access_token := v;
     _token_expires_at := _token_expires_at i;
     external_requests := external_requests i |}.

Definition set_token_expires_at (t : Z) (i : instance) : instance :=
  {| core := core i;
     oauth_api_url := oauth_api_url i;
     oauth_api_token := oauth_api_token i;
     google_ads_account_id := google_ads_account_id i;
     _access_token := _access_token i;
     _token_expires_at := Some t;
     external_requests := external_requests i |}.

Definition log_external_request (r : external_request) (i : instance) : instance :=
  {| core := core i;
     oauth_api_url := oauth_api_url i;
     oauth_api_token := oauth_api_token i;
     google_ads_account_id := google_ads_account_id i;
     _access_token := _access_token i;
     _token_expires_at := _token_expires_at i;
     external_requests := (external_requests i ++ [r])%list |}.

(** Lines 20-26: [__init__], given [os.environ]. *)
Definition DynamicOAuthClient (os_environ : gmap string string) : instance :=
  {| core := {| token_cache := ∅; trace := [] |};
     oauth_api_url := os_environ !! "OAUTH_API_URL";
     oauth_api_token := os_environ !! "OAUTH_API_TOKEN";
     google_ads_account_id := os_environ !! "GOOGLE_ADS_ACCOUNT_ID";
     _access_token := PNone;
     _token_expires_at := None;
     external_requests := [] |}.

(** The world of one method call: the world of the token exchange, the
    headers of the Flask request being served ([None] outside a request,
    where the [request] proxy is falsy; lookup by name is the library's),
    the external token API, and the clock readings of lines 152 and 197. *)
Record request_world : Type :=
  { base : world;
    flask_headers : option (string -> option string);
    external_post : string -> list (string * string) -> pyval -> exc response;
    time_at_external_store : Z;
    time_at_fallback : Z }.

(** [bool(s)] on [str | None]. *)
Definition opt_truthy (s : option string) : bool :=
  match s with
  | Some s => negb (String.eqb s EmptyString)
  | None => false
  end.

(** [f"{s}"] on [str | None]. *)
Definition opt_format (s : option string) : string :=
  match s with
  | Some s => s
  | None => "None"
  end.

(** [bool(t)] on [float | None]. *)
Definition expiry_truthy (t : option Z) : bool :=
  match t with
  | Some t => negb (t =? 0)
  | None => false
  end.

Definition external_headers (token : option string) : list (string * string) :=
  (("Content-Type", "application/json")
   :: (if opt_truthy token
       then [("Authorization", "Bearer " +:+ opt_format token)]
       else []))%list.

Definition external_payload (account : option string) : pyval :=
  PDict [ ("account_id", PStr (opt_format account));
          ("scopes", PList [PStr "https://www.googleapis.com/auth/adwords"]);
          ("service", PStr "google-ads") ].

(** Lines 121-160: the body of the [try] of
    [_get_token_from_external_api]. *)
Definition external_fetch_body (w : request_world) : ST instance pyval :=
  let! self := st_get in
  let request :=
    {| ext_url := opt_format (oauth_api_url self) +:+ "/oauth/google-ads/token";
       ext_headers := external_headers (oauth_api_token self);
       ext_json := external_payload (google_ads_account_id self);
       ext_timeout := 30 |} in
  st_modify (log_external_request request);;!
  let! resp := st_lift (external_post w (ext_url request) (ext_headers request)
                                      (ext_json request)) in
  if status_code resp =? 200 then
    let! token_data := st_lift (json resp) in
    let! access_token := st_lift (dict_get token_data "access_token" PNone) in
    let! expires_in := st_lift (dict_get token_data "expires_in" (PInt 3600)) in
    if truthy access_token then
      st_modify (set_access_token access_token);;!
      let! seconds := st_lift (as_number expires_in) in
      st_modify (set_token_expires_at (time_at_external_store w + seconds - 60));;!
      st_ret access_token
    else st_ret PNone
  else st_ret PNone.

(** Lines 104-167.  The cache check compares the entry's [expires_at], a
    float, with [datetime.utcnow()]: the comparison raises [TypeError], and
    it stands before the [try]. *)
Definition _get_token_from_external_api (w : request_world) : ST instance pyval :=
  let! self := st_get in
  if negb (opt_truthy (oauth_api_url self))
     || negb (opt_truthy (google_ads_account_id self))
  then st_ret PNone
  else
    let cache_key := "google_ads_" +:+ opt_format (google_ads_account_id self) in
    match token_cache (core self) !! cache_key with
    | Some cached_token =>
        st_raise (TypeError "'>' not supported between instances of 'float' and 'datetime.datetime'")
    | None =>
        st_try (external_fetch_body w) (fun _ => st_ret PNone)
    end.

(** Lines 252-273. *)
Definition get_customer_id (w : request_world) : option string :=
  let from_header :=
    match flask_headers w with
    | Some headers => headers "X-Google-Ads-Customer-ID"
    | None => None
    end in
  if opt_truthy from_header then from_header
  else
    let customer_id := environ (base w) !! "GOOGLE_ADS_CUSTOMER_ID" in
    if opt_truthy customer_id then customer_id else None.

(** One entry of [stats['cached_refresh_tokens']]. *)
Record token_stat : Type :=
  { stat_hash : string;
    stat_expires_in : Z;
    stat_expired : bool }.

Record cache_stats : Type :=
  { total_cached_tokens : nat;
    cached_refresh_tokens : list token_stat;
    expired_tokens : nat }.

(** Lines 239-248: one iteration of the loop over the cache. *)
Definition stats_step (current_time : Z) (stats : cache_stats)
           (item : string * cached_token) : cache_stats :=
  let (key, data) := item in
  if String.prefix "refresh_token_" key then
    let is_expired := expires_at data <=? current_time in
    {| total_cached_tokens := total_cached_tokens stats;
       cached_refresh_tokens :=
         (cached_refresh_tokens stats
          ++ [ {| stat_hash := refresh_token_hash data;
                  stat_expires_in := Z.max 0 (expires_at data - current_time);
                  stat_expired := is_expired |} ])%list;
       expired_tokens :=
         if is_expired then S (expired_tokens stats) else expired_tokens stats |}
  else stats.

(** Lines 228-250.  The entries are visited in the enumeration order of the
    map; Python visits them in insertion order. *)
Definition get_cache_stats (current_time : Z) (c : client) : cache_stats :=
  fold_left (stats_step current_time) (map_to_list (token_cache c))
            {| total_cached_tokens := size (token_cache c);
               cached_refresh_tokens := [];
               expired_tokens := 0 |}.

(** Every key of the cache is one made by
    [_get_cache_key_for_refresh_token]. *)
Definition keys_well_formed (c : client) : Prop :=
  forall key entry,
    token_cache c !! key = Some entry -> String.prefix "refresh_token_" key = true.

Section WithHash.

(** Python's built-in [hash] on [str]. *)
Context (hash : string -> Z).

Definition cache_delete (key : string) : M unit :=
  fun c => (inr tt, {| token_cache := delete key (token_cache c); trace := trace c |}).

(** Lines 205-212. *)
Definition clear_cache_for_refresh_token (refresh_token : string) : M unit :=
  let cache_key := _get_cache_key_for_refresh_token hash refresh_token in
  let* cached := cache_get cache_key in
  match cached with
  | Some _ => cache_delete cache_key
  | None => ret tt
  end.

(** Lines 176-193: the part of [get_access_token] that reads the request;
    [Some token] when it returns. *)
Definition token_from_request (w : request_world) : ST instance (option pyval) :=
  match flask_headers w with
  | Some headers =>
      let header_token := headers "X-OAuth-Access-Token" in
      if opt_truthy header_token then st_ret (Some (PStr (opt_format header_token)))
      else
        let header_refresh := headers "X-OAuth-Refresh-Token" in
        if opt_truthy header_refresh then
          st_try
            (let! new_token :=
               st_zoom core set_core
                 (_generate_access_token_from_refresh hash (base w)
                    (opt_format header_refresh)) in
             if truthy new_token then st_ret (Some new_token) else st_ret None)
            (fun _ => st_ret None)
        else st_ret None
  | None => st_ret None
  end.

(** Lines 169-203. *)
Definition get_access_token (w : request_world) : ST instance pyval :=
  let! from_request := token_from_request w in
  match from_request with
  | Some token => st_ret token
  | None =>
      let! self := st_get in
      if truthy (_access_token self) && expiry_truthy (_token_expires_at self) then
        if time_at_fallback w <? from_option id 0 (_token_expires_at self) - 60
        then st_ret (_access_token self)
        else st_ret PNone
      else st_ret PNone
  end.

(** Lines 214-226. *)
Definition refresh_token_if_needed (w : request_world) : ST instance bool :=
  let! self := st_get in
  let cache_key := "google_ads_" +:+ opt_format (google_ads_account_id self) in
  (match token_cache (core self) !! cache_key with
   | Some _ => st_zoom core set_core (cache_delete cache_key)
   | None => st_ret tt
   end);;!
  let! token := get_access_token w in
  st_ret (match token with PNone => false | _ => true end).

End WithHash.

(** *** A concrete object and request *)

Definition demo_external_answer : response :=
  {| status_code := 200;
     json := inr (PDict [ ("access_token", PStr "ya29.external");
                          ("expires_in", PInt 3600) ]);
     text := EmptyString |}.

(** Header lookup by exact name in a list of pairs. *)
Fixpoint demo_header (pairs : list (string * string)) (name : string) : option string :=
  match pairs with
  | [] => None
  | (k, v) :: rest => if String.eqb k name then Some v else demo_header rest name
  end.

Definition demo_request_world (headers : option (list (string * string))) (now : Z)
  : request_world :=
  {| base := demo_world now;
     flask_headers := option_map demo_header headers;
     external_post := fun _ _ _ => inr demo_external_answer;
     time_at_external_store := now;
     time_at_fallback := now |}.

(** A world whose environment names a customer. *)
Definition demo_env_world (headers : option (list (string * string))) : request_world :=
  {| base :=
       {| environ := {[ "GOOGLE_ADS_CUSTOMER_ID" := "5550001111" ]};
          ROOT_DIR := "/srv/ads_mcp";
          isfile := fun _ => false;
          read_yaml := fun _ => inl (FileNotFoundError "google-ads.yaml");
          requests_post := fun _ _ => inl (RequestException "unreachable");
          time_at_check := 1000;
          time_at_store := 1000 |};
     flask_headers := option_map demo_header headers;
     external_post := fun _ _ _ => inl (RequestException "unreachable");
     time_at_external_store := 1000;
     time_at_fallback := 1000 |}.

Definition demo_instance : instance :=
  DynamicOAuthClient
    {[ "OAUTH_API_URL" := "https://tokens.example.com";
       "GOOGLE_ADS_ACCOUNT_ID" := "1234567890" ]}.

(** The object after one fetch from the external API at time 1000. *)
Definition demo_fetched : instance :=
  snd (_get_token_from_external_api (demo_request_world None 1000) demo_instance).

(** The client after one exchange for the demo refresh token. *)
Definition demo_cached : client :=
  snd (_generate_access_token_from_refresh demo_hash (demo_world 1000)
         "1//0demo-refresh" fresh_client).

End OAuthInstance.

(** ** [ads_mcp/tools/api.py]: account listing and client construction *)

Module Tools.
Import PyStr Py OAuthClient Eff OAuthInstance Api.

(** [s.split(sep)] for a one-character separator: the pieces between the
    separators, never an empty list. *)
Fixpoint split_char (sep : ascii) (s : string) : list string :=
  match s with
  | EmptyString => [EmptyString]
  | String c rest =>
      if Ascii.eqb c sep then EmptyString :: split_char sep rest
      else match split_char sep rest with
           | piece :: pieces => String c piece :: pieces
           | [] => [String c EmptyString]
           end
  end.

Definition slash : ascii := ascii_of_nat 47.

(** [account.split("/")[-1]]. *)
Definition account_id (account : string) : string :=
  List.last (split_char slash account) EmptyString.

(** The world of [list_accessible_accounts]: the request headers, the world
    of the token exchange, [get_ads_client] as an outcome, and the
    customer service's [list_accessible_customers().resource_names]. *)
Record accounts_world (Client : Type) : Type :=
  { acc_http_headers : exc (gmap string string);
    acc_oauth : world;
    acc_get_ads_client : pyval -> exc Client;
    acc_resource_names : Client -> exc (list string) }.

Arguments acc_http_headers {Client} a.
Arguments acc_oauth {Client} a.
Arguments acc_get_ads_client {Client} a _.
Arguments acc_resource_names {Client} a _.

(** The world of [get_ads_client]: the world of the OAuth client, the
    constructors [Credentials] and [GoogleAdsClient],
    [GoogleAdsClient.load_from_storage], and FastMCP's [get_access_token()]
    reduced to the [token] of the object it returns. *)
Record client_world (Cred Client : Type) : Type :=
  { req : request_world;
    Credentials : pyval -> exc Cred;
    GoogleAdsClient_new : Cred -> pyval -> exc Client;
    load_from_storage : string -> exc Client;
    fastmcp_get_access_token : exc (option string) }.

Arguments req {Cred Client} c.
Arguments Credentials {Cred Client} c _.
Arguments GoogleAdsClient_new {Cred Client} c _ _.
Arguments load_from_storage {Cred Client} c _.
Arguments fastmcp_get_access_token {Cred Client} c.

(** The module state: the global [oauth_client] and [_ADS_CLIENT]. *)
Record module_state (Client : Type) : Type :=
  { oauth_client : instance;
    _ADS_CLIENT : option Client }.

Arguments oauth_client {Client} m.
Arguments _ADS_CLIENT {Client} m.

Definition set_oauth_client {Client} (m : module_state Client) (i : instance)
  : module_state Client :=
  {| oauth_client := i; _ADS_CLIENT := _ADS_CLIENT m |}.

Definition set_ADS_CLIENT {Client} (c : Client) (m : module_state Client)
  : module_state Client :=
  {| oauth_client := oauth_client m; _ADS_CLIENT := Some c |}.

Definition credentials_not_found : exn :=
  FileNotFoundError
    "Google Ads credentials YAML file is not found. Check [GOOGLE_ADS_CREDENTIALS] config.".

Section WithLibraries.

Context (hash : string -> Z).
Context (Cred Client : Type).

(** Lines 133-156. *)
Definition list_accessible_accounts (w : accounts_world Client) : M (list string) :=
  match get_refresh_token_from_headers (acc_http_headers w) with
  | Some refresh_token =>
      if String.eqb refresh_token EmptyString then
        raise (PlainException "Missing X-OAuth-Refresh-Token header for authentication")
      else
        let* access_token :=
          _generate_access_token_from_refresh hash (acc_oauth w) refresh_token in
        if negb (truthy access_token) then
          raise (PlainException "Failed to generate access token from refresh token")
        else
          let* ads_client := lift (acc_get_ads_client w access_token) in
          let* accounts := lift (acc_resource_names w ads_client) in
          ret (map account_id accounts)
  | None =>
      raise (PlainException "Missing X-OAuth-Refresh-Token header for authentication")
  end.

(** The block that lines 83-88, 97-102 and 118-123 repeat: credentials
    from the token, the developer token from the YAML file, the client. *)
Definition client_from_token (w : client_world Cred Client) (token : pyval)
  : exc Client :=
  exc_bind (Credentials w token) (fun credentials =>
  exc_bind (read_yaml (base (req w)) (credentials_path (base (req w)))) (fun ads_config =>
  exc_bind (dict_get ads_config "developer_token" PNone) (fun developer_token =>
  GoogleAdsClient_new w credentials developer_token))).

(** Lines 57-129. *)
Definition get_ads_client (w : client_world Cred Client) (access_token : pyval)
  : ST (module_state Client) Client :=
  let credentials_path := credentials_path (base (req w)) in
  let isfile := isfile (base (req w)) credentials_path in
  if truthy access_token && isfile then
    st_lift (client_from_token w access_token)
  else
    let! dynamic_token :=
      st_zoom oauth_client set_oauth_client (get_access_token hash (req w)) in
    if truthy dynamic_token && isfile then
      st_lift (client_from_token w dynamic_token)
    else
      let! fastmcp_token := st_lift (fastmcp_get_access_token w) in
      let access_token :=
        match fastmcp_token with
        | Some token => PStr token
        | None => PNone
        end in
      if negb isfile then st_raise credentials_not_found
      else if truthy access_token then
        st_lift (client_from_token w access_token)
      else
        let! state := st_get in
        match _ADS_CLIENT state with
        | Some ads_client => st_ret ads_client
        | None =>
            let! ads_client := st_lift (load_from_storage w credentials_path) in
            st_modify (set_ADS_CLIENT ads_client);;!
            st_ret ads_client
        end.

(** No source has a token for [get_ads_client], and the credentials file
    exists: the argument is falsy, the OAuth client answers [None], and
    FastMCP holds no token or an empty one. *)
Definition no_token_available (w : client_world Cred Client) (access_token : pyval)
           (state : module_state Client) : Prop :=
  isfile (base (req w)) (credentials_path (base (req w))) = true
  /\ truthy access_token = false
  /\ fst (get_access_token hash (req w) (oauth_client state)) = inr PNone
  /\ (fastmcp_get_access_token w = inr None
      \/ fastmcp_get_access_token w = inr (Some EmptyString)).

(** Rows of a response, as for [execute_gaql]. *)
Context (Message : Type) (to_dict : Message -> exc (list (string * pyval))).
Context (debug_line : value Message -> exn -> exc string).
Context (Row : Type) (get_nested_attr : Row -> string -> exc (value Message)).

(** The rows of a response, each with the field mask of its batch, in the
    order of the stream. *)
Definition masked_rows (batches : list (batch Row)) : list (list string * Row) :=
  flat_map (fun b => map (pair (field_mask_paths b)) (results b)) batches.

(** [row_data] is the mapping that lines 236-252 build for a row. *)
Definition mapping_of (masked_row : list string * Row)
           (row_data : gmap string (value Message)) : Prop :=
  process_fields Message to_dict debug_line Row get_nested_attr
    (snd masked_row) (fst masked_row) ∅ = inr row_data.

End WithLibraries.

(** *** Concrete worlds for the tools *)

Definition demo_accounts_world : accounts_world unit :=
  {| acc_http_headers := inr {[ "x-oauth-refresh-token" := "1//0demo-refresh" ]};
     acc_oauth := demo_world 1000;
     acc_get_ads_client := fun _ => inr tt;
     acc_resource_names := fun _ =>
       inr (map (fun id => "customers/" +:+ id) ["1234567890"; "9876543210"]) |}.

Definition offline_accounts_world : accounts_world unit :=
  {| acc_http_headers := inr {[ "x-oauth-refresh-token" := "1//0demo-refresh" ]};
     acc_oauth := offline_world 1000;
     acc_get_ads_client := fun _ => inr tt;
     acc_resource_names := fun _ => inr [] |}.

Definition offline_api_world : api_world demo_row :=
  {| get_http_headers := inr {[ "x-oauth-refresh-token" := "1//0demo-refresh" ]};
     oauth := offline_world 1000;
     Api.get_ads_client := fun _ => inl (FileNotFoundError "google-ads.yaml");
     str_errors := fun _ => "[]" |}.

(** A client is given by the token and the developer token it was built
    from; the stored configuration gives the client of [stored]. *)
Definition demo_client_world (w : request_world) : client_world pyval (pyval * pyval) :=
  {| req := w;
     Credentials := fun token => inr token;
     GoogleAdsClient_new := fun credentials developer_token =>
       inr (credentials, developer_token);
     load_from_storage := fun _ => inr (PStr "stored-refresh-token", PStr "dev-token");
     fastmcp_get_access_token := inr None |}.

Definition fastmcp_client_world (w : request_world) : client_world pyval (pyval * pyval) :=
  {| req := w;
     Credentials := fun token => inr token;
     GoogleAdsClient_new := fun credentials developer_token =>
       inr (credentials, developer_token);
     load_from_storage := fun _ => inl (ValueError "no refresh token in the file");
     fastmcp_get_access_token := inr (Some "fastmcp-token") |}.

(** A response of two batches with different field masks. *)
Definition demo_masked_stream : Api.stream demo_row :=
  {| delivered := [ {| field_mask_paths := ["campaign.id"; "campaign.status"];
                       results := [full_row] |};
                    {| field_mask_paths := ["campaign.id"];
                       results := [short_row; full_row] |} ];
     failure := None |}.

Definition demo_module_state : module_state (pyval * pyval) :=
  {| oauth_client := demo_instance; _ADS_CLIENT := None |}.

End Tools.

(** * Properties of the string primitives *)

Module PyStrFacts.
Import PyStr.

Example replace_type_suffix :
  replace ".type" ".type_" "ad_group.type" = "ad_group.type_".
Proof. reflexivity. Qed.

Example replace_every_occurrence :
  replace ".type" ".type_" "ad_group_ad.ad.type.x.type" = "ad_group_ad.ad.type_.x.type_".
Proof. reflexivity. Qed.

Example replace_no_occurrence :
  replace ".type" ".type_" "campaign.advertising_channel_type"
  = "campaign.advertising_channel_type".
Proof. reflexivity. Qed.

Example join_three : join ", " ["a"; "b"; "c"] = "a, b, c".
Proof. reflexivity. Qed.

Lemma prefix_refl_app (p s : string) : String.prefix p (p +:+ s) = true.
Proof.
  induction p as [|c p IH]; simpl.
  - now destruct s.
  - destruct (ascii_dec c c); [exact IH | congruence].
Qed.

Lemma str_in_unfold (needle hay : string) :
  str_in needle hay
  = String.prefix needle hay ||
    match hay with
    | EmptyString => false
    | String _ rest => str_in needle rest
    end.
Proof. destruct hay; reflexivity. Qed.

Lemma str_in_here (needle rest : string) : str_in needle (needle +:+ rest) = true.
Proof. rewrite str_in_unfold, prefix_refl_app. reflexivity. Qed.

Lemma str_in_skip (needle front back : string) :
  str_in needle back = true -> str_in needle (front +:+ back) = true.
Proof.
  intros H. induction front as [|c front IH]; simpl; [exact H|].
  rewrite IH. apply orb_true_r.
Qed.

Lemma str_in_middle (needle front back : string) :
  str_in needle (front +:+ needle +:+ back) = true.
Proof. apply str_in_skip, str_in_here. Qed.

Lemma endswith_refl (s : string) : endswith s s = true.
Proof. destruct s; simpl; [reflexivity|]. now rewrite String.eqb_refl, Ascii.eqb_refl. Qed.

Lemma endswith_app (front suffix : string) : endswith (front +:+ suffix) suffix = true.
Proof.
  induction front as [|c front IH]; simpl.
  - apply endswith_refl.
  - rewrite IH. apply orb_true_r.
Qed.

Lemma str_app_cons (c : ascii) (a b : string) : String c a +:+ b = String c (a +:+ b).
Proof. reflexivity. Qed.

Lemma str_app_assoc (a b c : string) : (a +:+ b) +:+ c = a +:+ b +:+ c.
Proof.
  induction a as [|x a IH]; [reflexivity|].
  rewrite !str_app_cons. f_equal. exact IH.
Qed.

Lemma str_app_nil_r (a : string) : a +:+ EmptyString = a.
Proof. induction a as [|x a IH]; [reflexivity|]. rewrite str_app_cons. f_equal. exact IH. Qed.

Lemma join_cons (sep head : string) (rest : list string) :
  exists tail, join sep (head :: rest) = head +:+ tail.
Proof.
  destruct rest as [|r rest].
  - exists EmptyString. simpl. now rewrite str_app_nil_r.
  - eexists. reflexivity.
Qed.

Lemma join_app (sep : string) (xs ys : list string) :
  xs <> nil -> ys <> nil ->
  join sep (xs ++ ys) = join sep xs +:+ sep +:+ join sep ys.
Proof.
  intros Hxs Hys. induction xs as [|x xs IH]; [contradiction|].
  destruct xs as [|x' xs].
  - simpl. destruct ys; [contradiction | reflexivity].
  - change (join sep ((x :: x' :: xs) ++ ys))
      with (x +:+ sep +:+ join sep ((x' :: xs) ++ ys)).
    rewrite IH by discriminate.
    change (join sep (x :: x' :: xs)) with (x +:+ sep +:+ join sep (x' :: xs)).
    now rewrite !str_app_assoc.
Qed.

End PyStrFacts.

(** * Query preprocessing *)

Module GaqlFacts.
Import PyStr PyStrFacts Gaql.

Example preprocess_plain :
  preprocess_gaql "SELECT campaign.id FROM campaign"
  = "SELECT campaign.id FROM campaign PARAMETERS omit_unselected_resource_names=true".
Proof. reflexivity. Qed.

Example preprocess_drafts :
  preprocess_gaql "SELECT campaign.id FROM campaign PARAMETERS include_drafts=true"
  = "SELECT campaign.id FROM campaign PARAMETERS include_drafts=true omit_unselected_resource_names=true".
Proof. reflexivity. Qed.

Lemma preprocess_gaql_has_directive (query : string) :
  str_in directive (preprocess_gaql query) = true.
Proof.
  unfold preprocess_gaql, directive.
  destruct (str_in "omit_unselected_resource_names" query) eqn:E; simpl; [exact E|].
  destruct (str_in "PARAMETERS" query && str_in "include_drafts" query).
  - apply str_in_skip. reflexivity.
  - apply str_in_skip. reflexivity.
Qed.

(** C4: a query that contains neither the directive nor the drafts marker
    is returned with [" PARAMETERS omit_unselected_resource_names=true"]
    appended, so the result ends with
    ["PARAMETERS omit_unselected_resource_names=true"]. *)
Theorem preprocess_gaql_appends_parameters (query : string) :
  str_in "omit_unselected_resource_names" query = false ->
  str_in "include_drafts" query = false ->
  preprocess_gaql query
    = query +:+ " PARAMETERS omit_unselected_resource_names=true"
  /\ endswith (preprocess_gaql query)
       "PARAMETERS omit_unselected_resource_names=true" = true.
Proof.
  intros Hdir Hdrafts.
  assert (E : preprocess_gaql query
              = query +:+ " PARAMETERS omit_unselected_resource_names=true").
  { unfold preprocess_gaql. rewrite Hdir, Hdrafts, andb_false_r. reflexivity. }
  split; [exact E|].
  rewrite E.
  change " PARAMETERS omit_unselected_resource_names=true"
    with (" " +:+ "PARAMETERS omit_unselected_resource_names=true").
  rewrite <- str_app_assoc. apply endswith_app.
Qed.

Lemma preprocess_gaql_appends_parameters_witness :
  preprocess_gaql "SELECT campaign.id FROM campaign"
    = "SELECT campaign.id FROM campaign"
      +:+ " PARAMETERS omit_unselected_resource_names=true"
  /\ endswith (preprocess_gaql "SELECT campaign.id FROM campaign")
       "PARAMETERS omit_unselected_resource_names=true" = true.
Proof.
  apply (preprocess_gaql_appends_parameters "SELECT campaign.id FROM campaign");
    reflexivity.
Defined.

(** C5: a query that already contains the directive marker is returned
    unchanged, and preprocessing twice is the same as preprocessing once. *)
Theorem preprocess_gaql_idempotent (query : string) :
  (str_in "omit_unselected_resource_names" query = true ->
   preprocess_gaql query = query)
  /\ preprocess_gaql (preprocess_gaql query) = preprocess_gaql query.
Proof.
  assert (noop : forall q, str_in "omit_unselected_resource_names" q = true ->
                           preprocess_gaql q = q).
  { intros q H. unfold preprocess_gaql. now rewrite H. }
  split; [apply noop|].
  apply noop, preprocess_gaql_has_directive.
Qed.

Lemma preprocess_gaql_idempotent_witness :
  preprocess_gaql "SELECT a FROM b PARAMETERS omit_unselected_resource_names=false"
    = "SELECT a FROM b PARAMETERS omit_unselected_resource_names=false"
  /\ preprocess_gaql (preprocess_gaql "SELECT a FROM b") = preprocess_gaql "SELECT a FROM b".
Proof.
  split.
  - apply (proj1 (preprocess_gaql_idempotent
                    "SELECT a FROM b PARAMETERS omit_unselected_resource_names=false")).
    reflexivity.
  - apply (proj2 (preprocess_gaql_idempotent "SELECT a FROM b")).
Defined.

End GaqlFacts.

(** * The token cache *)

Module OAuthClientFacts.
Import PyStr Py OAuthClient.

Section WithHash.
(** Python's built-in [hash] on [str]. *)
Context (hash : string -> Z).

Local Abbreviation _get_cache_key_for_refresh_token := (OAuthClient._get_cache_key_for_refresh_token hash).
Local Abbreviation exchange_body := (OAuthClient.exchange_body hash).
Local Abbreviation exchange := (OAuthClient.exchange hash).
Local Abbreviation _generate_access_token_from_refresh := (OAuthClient._generate_access_token_from_refresh hash).
Local Abbreviation no_unexpired_entry := (OAuthClient.no_unexpired_entry hash).

Ltac run_exchange :=
  unfold exchange, try_except, exchange_body, bind, lift, emit, ret, cache_set in *;
  simpl in *.

Ltac absurd_branch :=
  exfalso;
  repeat match goal with
         | H : negb _ = false |- _ => apply negb_false_iff in H
         | H : _ || _ = false |- _ => apply orb_false_iff in H; destruct H
         | H : (_ =? _) = true |- _ => apply Z.eqb_eq in H
         end;
  congruence.

Lemma generate_miss (w : world) (refresh_token : string) (c : client) :
  no_unexpired_entry c refresh_token (time_at_check w) ->
  _generate_access_token_from_refresh w refresh_token c
  = exchange w refresh_token c.
Proof.
  unfold no_unexpired_entry, _generate_access_token_from_refresh, cache_hit,
    bind, cache_get, ret.
  destruct (token_cache c !! _) as [entry|]; [|reflexivity].
  intros Hexp. destruct (Z.gtb_spec (expires_at entry) (time_at_check w)); [lia|reflexivity].
Qed.

Lemma generate_hit (w : world) (refresh_token : string) (c : client)
      (entry : cached_token) :
  token_cache c !! _get_cache_key_for_refresh_token refresh_token = Some entry ->
  expires_at entry > time_at_check w ->
  _generate_access_token_from_refresh w refresh_token c
  = (inr (access_token entry), c).
Proof.
  intros Hlook Hlive.
  unfold _generate_access_token_from_refresh, cache_hit, bind, cache_get, ret.
  rewrite Hlook.
  destruct (Z.gtb_spec (expires_at entry) (time_at_check w)); [reflexivity|lia].
Qed.

Lemma exchange_never_raises (w : world) (refresh_token : string) (c : client) :
  exists v c', exchange w refresh_token c = (inr v, c').
Proof.
  unfold exchange, try_except, ret.
  destruct (exchange_body w refresh_token c) as [[e|v] c']; eauto.
Qed.

Lemma exchange_success_stores (w : world) (refresh_token : string)
      (c c' : client) (token : pyval) :
  exchange w refresh_token c = (inr token, c') ->
  token <> PNone ->
  exists entry,
    token_cache c'
    = <[_get_cache_key_for_refresh_token refresh_token := entry]> (token_cache c)
    /\ access_token entry = token.
Proof.
  intros Hrun Hsome. run_exchange.
  repeat (case_match; simplify_eq/=); try congruence; eauto.
Qed.

Lemma exchange_token_origin (w : world) (refresh_token : string)
      (c c' : client) (token : pyval) :
  exchange w refresh_token c = (inr token, c') ->
  token <> PNone ->
  exists resp token_data,
    provider_answers w refresh_token resp
    /\ status_code resp = 200
    /\ json resp = inr token_data
    /\ dict_get token_data "access_token" PNone = inr token.
Proof.
  intros Hrun Hsome. unfold provider_answers. run_exchange.
  repeat (case_match; simplify_eq/=); try congruence.
  match goal with H : (_ =? 200) = true |- _ => apply Z.eqb_eq in H end.
  do 2 eexists. split; [|eauto]. do 3 eexists. eauto.
Qed.

Lemma exchange_trace_starts (w : world) (refresh_token : string) (c : client) :
  exists later,
    trace (snd (exchange w refresh_token c))
    = (trace c ++ CredentialsLookup (credentials_path w) :: later)%list.
Proof.
  run_exchange.
  repeat (case_match; simplify_eq/=);
    rewrite <- ?List.app_assoc; simpl; eauto.
Qed.

Lemma exchange_posts (w : world) (refresh_token : string) (c : client)
      (ads_config client_id client_secret : pyval) :
  isfile w (credentials_path w) = true ->
  read_yaml w (credentials_path w) = inr ads_config ->
  dict_get ads_config "client_id" PNone = inr client_id ->
  dict_get ads_config "client_secret" PNone = inr client_secret ->
  truthy client_id = true ->
  truthy client_secret = true ->
  In (TokenRequest token_url (token_form client_id client_secret refresh_token))
     (trace (snd (exchange w refresh_token c))).
Proof.
  intros Hfile Hyaml Hid Hsecret Tid Tsecret. run_exchange.
  rewrite Hfile, Hyaml, Hid, Hsecret, Tid, Tsecret. simpl.
  repeat (case_match; simplify_eq/=);
    rewrite ?in_app_iff; simpl; auto.
Qed.

Lemma exchange_failure_none (w : world) (refresh_token : string) (c : client) :
  exchange_failure w refresh_token ->
  exists c',
    exchange w refresh_token c = (inr PNone, c')
    /\ token_cache c' = token_cache c.
Proof.
  intros Hfail. run_exchange.
  destruct Hfail; unfold provider_answers in *;
    repeat match goal with
           | H : exists _, _ |- _ => destruct H
           | H : _ /\ _ |- _ => destruct H
           end;
    repeat (case_match; simplify_eq/=);
    try (eexists; split; reflexivity);
    try congruence.
  all: absurd_branch.
Qed.

(** C1: when the cache holds no unexpired entry for a refresh token and
    the exchange succeeds (a token is returned), the token is stored in
    the cache under the key derived from the refresh token; a later call
    with the same refresh token, made while that entry is unexpired,
    returns the same token and leaves the client untouched: nothing is
    added to the trace, so no credentials are read and no request is
    sent. *)
Theorem successful_exchange_is_cached
        (w : world) (refresh_token : string) (c c1 : client) (token : pyval) :
  no_unexpired_entry c refresh_token (time_at_check w) ->
  _generate_access_token_from_refresh w refresh_token c = (inr token, c1) ->
  token <> PNone ->
  exists entry,
    token_cache c1 !! _get_cache_key_for_refresh_token refresh_token = Some entry
    /\ access_token entry = token
    /\ forall (w2 : world) (c2 : client),
         token_cache c2 !! _get_cache_key_for_refresh_token refresh_token
         = Some entry ->
         expires_at entry > time_at_check w2 ->
         _generate_access_token_from_refresh w2 refresh_token c2
         = (inr token, c2).
Proof.
  intros Hmiss Hrun Hsome.
  rewrite (generate_miss _ _ _ Hmiss) in Hrun.
  destruct (exchange_success_stores _ _ _ _ _ Hrun Hsome) as (entry & Hcache & Htok).
  exists entry. split; [|split].
  - rewrite Hcache. apply lookup_insert_eq.
  - exact Htok.
  - intros w2 c2 Hlook Hlive. rewrite <- Htok.
    now apply generate_hit.
Qed.

(** C2: when the cache entry of a refresh token has an expiry timestamp
    less than or equal to the current time, the call is the exchange and
    nothing else: the credentials are looked up again, the token request
    is sent whenever the credentials file provides a client id and
    secret, and the value returned is [None] or the access token of the
    provider's new answer, never a value read from the cache. *)
Theorem expired_entry_is_exchanged_again
        (w : world) (refresh_token : string) (c : client) (entry : cached_token) :
  token_cache c !! _get_cache_key_for_refresh_token refresh_token = Some entry ->
  expires_at entry <= time_at_check w ->
  let outcome := _generate_access_token_from_refresh w refresh_token c in
  outcome = exchange w refresh_token c
  /\ (exists later,
        trace (snd outcome)
        = (trace c ++ CredentialsLookup (credentials_path w) :: later)%list)
  /\ (forall ads_config client_id client_secret,
        isfile w (credentials_path w) = true ->
        read_yaml w (credentials_path w) = inr ads_config ->
        dict_get ads_config "client_id" PNone = inr client_id ->
        dict_get ads_config "client_secret" PNone = inr client_secret ->
        truthy client_id = true ->
        truthy client_secret = true ->
        In (TokenRequest token_url
              (token_form client_id client_secret refresh_token))
           (trace (snd outcome)))
  /\ (fst outcome = inr PNone
      \/ exists resp token_data token,
           provider_answers w refresh_token resp
           /\ status_code resp = 200
           /\ json resp = inr token_data
           /\ dict_get token_data "access_token" PNone = inr token
           /\ fst outcome = inr token).
Proof.
  intros Hlook Hexp outcome.
  assert (Hrun : outcome = exchange w refresh_token c).
  { apply generate_miss. unfold no_unexpired_entry. now rewrite Hlook. }
  rewrite Hrun. split; [reflexivity|]. split; [apply exchange_trace_starts|].
  split; [intros; eapply exchange_posts; eassumption|].
  destruct (exchange_never_raises w refresh_token c) as (v & c' & Hv).
  rewrite Hv. simpl.
  destruct v; try (right;
    edestruct (exchange_token_origin _ _ _ _ _ Hv) as (resp & data & ? & ? & ? & ?);
    [discriminate | exists resp, data; eauto 10]).
  now left.
Qed.

(** C8: the call never raises, and whenever no unexpired entry serves the
    request and the exchange fails -- credentials file missing or
    unreadable, client id or secret missing, request error, response
    other than 200, response body unreadable or without an access token --
    the value returned is [None] and the cache is left as it was. *)
Theorem failed_exchange_returns_none
        (w : world) (refresh_token : string) (c : client) :
  (exists v c', _generate_access_token_from_refresh w refresh_token c = (inr v, c'))
  /\ (no_unexpired_entry c refresh_token (time_at_check w) ->
      exchange_failure w refresh_token ->
      exists c',
        _generate_access_token_from_refresh w refresh_token c = (inr PNone, c')
        /\ token_cache c' = token_cache c).
Proof.
  split.
  - unfold _generate_access_token_from_refresh, cache_hit, bind, cache_get, ret.
    destruct (token_cache c !! _) as [entry|].
    + destruct (expires_at entry >? time_at_check w); [eauto|].
      apply exchange_never_raises.
    + apply exchange_never_raises.
  - intros Hmiss Hfail. rewrite (generate_miss _ _ _ Hmiss).
    now apply exchange_failure_none.
Qed.

End WithHash.

Example demo_cache_key :
  _get_cache_key_for_refresh_token demo_hash "1//0demo-refresh" = "refresh_token_84".
Proof. reflexivity. Qed.

Example demo_first_call :
  fst (_generate_access_token_from_refresh demo_hash (demo_world 1000)
         "1//0demo-refresh" fresh_client)
  = inr (PStr "ya29.fresh").
Proof. reflexivity. Qed.

Example demo_stale_call :
  fst (_generate_access_token_from_refresh demo_hash (demo_world 1000)
         "1//0demo-refresh" stale_client)
  = inr (PStr "ya29.fresh").
Proof. reflexivity. Qed.

Example demo_offline_call :
  fst (_generate_access_token_from_refresh demo_hash (offline_world 1000)
         "1//0demo-refresh" stale_client)
  = inr PNone.
Proof. reflexivity. Qed.

Lemma successful_exchange_is_cached_witness :
  exists entry,
    token_cache
      (snd (_generate_access_token_from_refresh demo_hash (demo_world 1000)
              "1//0demo-refresh" fresh_client))
      !! _get_cache_key_for_refresh_token demo_hash "1//0demo-refresh"
    = Some entry
    /\ access_token entry = PStr "ya29.fresh"
    /\ forall (w2 : world) (c2 : client),
         token_cache c2 !! _get_cache_key_for_refresh_token demo_hash "1//0demo-refresh"
         = Some entry ->
         expires_at entry > time_at_check w2 ->
         _generate_access_token_from_refresh demo_hash w2 "1//0demo-refresh" c2
         = (inr (PStr "ya29.fresh"), c2).
Proof.
  apply (successful_exchange_is_cached demo_hash (demo_world 1000)
           "1//0demo-refresh" fresh_client).
  - vm_compute. exact I.
  - reflexivity.
  - discriminate.
Defined.

Lemma expired_entry_is_exchanged_again_witness :
  let outcome :=
    _generate_access_token_from_refresh demo_hash (demo_world 1000)
      "1//0demo-refresh" stale_client in
  outcome = exchange demo_hash (demo_world 1000) "1//0demo-refresh" stale_client
  /\ (exists later,
        trace (snd outcome)
        = (trace stale_client
           ++ CredentialsLookup (credentials_path (demo_world 1000)) :: later)%list)
  /\ (forall ads_config client_id client_secret,
        isfile (demo_world 1000) (credentials_path (demo_world 1000)) = true ->
        read_yaml (demo_world 1000) (credentials_path (demo_world 1000))
        = inr ads_config ->
        dict_get ads_config "client_id" PNone = inr client_id ->
        dict_get ads_config "client_secret" PNone = inr client_secret ->
        truthy client_id = true ->
        truthy client_secret = true ->
        In (TokenRequest token_url
              (token_form client_id client_secret "1//0demo-refresh"))
           (trace (snd outcome)))
  /\ (fst outcome = inr PNone
      \/ exists resp token_data token,
           provider_answers (demo_world 1000) "1//0demo-refresh" resp
           /\ status_code resp = 200
           /\ json resp = inr token_data
           /\ dict_get token_data "access_token" PNone = inr token
           /\ fst outcome = inr token).
Proof.
  apply (expired_entry_is_exchanged_again demo_hash (demo_world 1000)
           "1//0demo-refresh" stale_client stale_entry).
  - reflexivity.
  - simpl. lia.
Defined.

Lemma failed_exchange_returns_none_witness :
  exists c',
    _generate_access_token_from_refresh demo_hash (offline_world 1000)
      "1//0demo-refresh" stale_client
    = (inr PNone, c')
    /\ token_cache c' = token_cache stale_client.
Proof.
  apply (proj2 (failed_exchange_returns_none demo_hash (offline_world 1000)
                  "1//0demo-refresh" stale_client)).
  - vm_compute. discriminate.
  - apply credentials_file_missing. reflexivity.
Defined.

End OAuthClientFacts.

(** * Headers, formatting and query execution *)

Module ApiFacts.
Import PyStr PyStrFacts Py OAuthClient Api.

Example headers_lowercase :
  get_refresh_token_from_headers
    (inr {[ "x-oauth-refresh-token" := "1//0demo-refresh" ]})
  = Some "1//0demo-refresh".
Proof. reflexivity. Qed.

Example headers_canonical :
  get_refresh_token_from_headers
    (inr {[ "X-OAuth-Refresh-Token" := "1//0demo-refresh" ]})
  = Some "1//0demo-refresh".
Proof. reflexivity. Qed.

Example headers_unavailable :
  get_refresh_token_from_headers (inl (RuntimeError "No active HTTP request" None))
  = None.
Proof. reflexivity. Qed.

Lemma header_lookup_two_spellings (headers : gmap string string) :
  (forall value,
      headers !! "x-oauth-refresh-token" = Some value ->
      value <> EmptyString ->
      get_refresh_token_from_headers (inr headers) = Some value)
  /\ (headers !! "x-oauth-refresh-token" = None
      \/ headers !! "x-oauth-refresh-token" = Some EmptyString ->
      get_refresh_token_from_headers (inr headers)
      = headers !! "X-OAuth-Refresh-Token")
  /\ (headers !! "x-oauth-refresh-token" = None ->
      headers !! "X-OAuth-Refresh-Token" = None ->
      get_refresh_token_from_headers (inr headers) = None).
Proof.
  unfold get_refresh_token_from_headers, exc_try_default.
  case_bool_decide as Hempty.
  - subst headers. rewrite !lookup_empty.
    split; [intros ? [=] | split; reflexivity].
  - split; [|split].
    + intros value -> Hne. simpl.
      destruct (String.eqb_spec value EmptyString); [contradiction | reflexivity].
    + intros [-> | ->]; reflexivity.
    + intros -> ->. reflexivity.
Qed.

(** Headers whose lower-cased name is not [key] leave the entry of [key]
    as it was. *)
Lemma get_http_headers_other (exclude_headers : list string)
      (request_headers : list (string * string)) (key : string)
      (headers : gmap string string) :
  (forall item, In item request_headers -> lower (fst item) <> key) ->
  fold_left
    (fun headers item =>
       let lower_name := lower (fst item) in
       if existsb (String.eqb lower_name) exclude_headers then headers
       else <[lower_name := snd item]> headers)
    request_headers headers !! key
  = headers !! key.
Proof.
  revert headers.
  induction request_headers as [|item rest IH]; intros headers Hother; [reflexivity|].
  cbn [fold_left]. rewrite IH by (intros i Hi; apply Hother; now right).
  cbv zeta. destruct (existsb _ exclude_headers); [reflexivity|].
  apply lookup_insert_ne. apply Hother. now left.
Qed.

(** The last header sent under a name that is not excluded is the one the
    mapping holds under the lower-cased name. *)
Lemma get_http_headers_last (exclude_headers : list string)
      (before after : list (string * string)) (name value : string) :
  existsb (String.eqb (lower name)) exclude_headers = false ->
  (forall item, In item after -> lower (fst item) <> lower name) ->
  FastMCP_get_http_headers exclude_headers (before ++ (name, value) :: after)
    !! lower name
  = Some value.
Proof.
  intros Hkept Hlast. unfold FastMCP_get_http_headers.
  rewrite fold_left_app. cbn [fold_left].
  rewrite get_http_headers_other by exact Hlast.
  cbn [fst snd]. cbv zeta. rewrite Hkept. apply lookup_insert_eq.
Qed.

Lemma lower_ascii_not_X (c : ascii) : lower_ascii c <> "X"%char.
Proof.
  destruct c as [[] [] [] [] [] [] [] []]; vm_compute; discriminate.
Qed.

(** No key of the mapping starts with a capital letter. *)
Lemma get_http_headers_no_capitalised (exclude_headers : list string)
      (request_headers : list (string * string)) :
  FastMCP_get_http_headers exclude_headers request_headers
    !! "X-OAuth-Refresh-Token"
  = None.
Proof.
  unfold FastMCP_get_http_headers. rewrite get_http_headers_other; [apply lookup_empty|].
  intros [name value] _. cbn [fst]. destruct name as [|c name]; [discriminate|].
  cbn [lower]. intros [= Hc _]. exact (lower_ascii_not_X c Hc).
Qed.

(** C3, as stated, fails: a request that carries the refresh-token header
    with an empty value yields [None], not the value of the header. *)
Lemma empty_refresh_token_header_is_missed :
  FastMCP_get_http_headers [] [("X-OAuth-Refresh-Token", EmptyString)]
  = {[ "x-oauth-refresh-token" := EmptyString ]}
  /\ FastMCP_get_http_headers [] [("X-OAuth-Refresh-Token", EmptyString)]
       !! "x-oauth-refresh-token"
     = Some EmptyString
  /\ get_refresh_token_from_headers
       (inr (FastMCP_get_http_headers [] [("X-OAuth-Refresh-Token", EmptyString)]))
     = None
  /\ get_refresh_token_from_headers
       (inr (FastMCP_get_http_headers [] [("X-OAuth-Refresh-Token", EmptyString)]))
     <> Some EmptyString.
Proof.
  split; [reflexivity|]. split; [reflexivity|]. split; [reflexivity | discriminate].
Qed.

(** C3, amended: for a request that carries the refresh-token header under
    any letter-casing of its name, the mapping that FastMCP hands over
    holds the value sent last under the lower-cased name, and
    [get_refresh_token_from_headers] returns that value when it is not
    empty; when it is empty the result is [None]. *)
Theorem refresh_token_header_any_casing
        (exclude_headers : list string) (before after : list (string * string))
        (name value : string) :
  names_refresh_token name = true ->
  existsb (String.eqb "x-oauth-refresh-token") exclude_headers = false ->
  (forall item, In item after -> names_refresh_token (fst item) = false) ->
  FastMCP_get_http_headers exclude_headers (before ++ (name, value) :: after)
    !! "x-oauth-refresh-token"
  = Some value
  /\ (value <> EmptyString ->
      get_refresh_token_from_headers
        (inr (FastMCP_get_http_headers exclude_headers
                (before ++ (name, value) :: after)))
      = Some value)
  /\ (value = EmptyString ->
      get_refresh_token_from_headers
        (inr (FastMCP_get_http_headers exclude_headers
                (before ++ (name, value) :: after)))
      = None).
Proof.
  unfold names_refresh_token. intros Hname Hkept Hlast.
  apply String.eqb_eq in Hname.
  assert (Hlookup :
            FastMCP_get_http_headers exclude_headers (before ++ (name, value) :: after)
              !! "x-oauth-refresh-token"
            = Some value).
  { rewrite <- Hname. apply get_http_headers_last.
    - now rewrite Hname.
    - intros item Hin Heq. specialize (Hlast item Hin).
      rewrite Heq, Hname, String.eqb_refl in Hlast. discriminate. }
  split; [exact Hlookup|]. split.
  - intros Hne. now apply (proj1 (header_lookup_two_spellings _)).
  - intros ->.
    rewrite (proj1 (proj2 (header_lookup_two_spellings _))) by (right; exact Hlookup).
    apply get_http_headers_no_capitalised.
Qed.

Lemma refresh_token_header_any_casing_witness :
  FastMCP_get_http_headers ["content-length"]
    [ ("Host", "ads.example"); ("X-Oauth-Refresh-Token", "1//0demo-refresh");
      ("Accept", "application/json") ]
    !! "x-oauth-refresh-token"
  = Some "1//0demo-refresh"
  /\ get_refresh_token_from_headers
       (inr (FastMCP_get_http_headers ["content-length"]
               [ ("Host", "ads.example"); ("X-Oauth-Refresh-Token", "1//0demo-refresh");
                 ("Accept", "application/json") ]))
     = Some "1//0demo-refresh".
Proof.
  destruct (refresh_token_header_any_casing ["content-length"]
              [ ("Host", "ads.example") ] [ ("Accept", "application/json") ]
              "X-Oauth-Refresh-Token" "1//0demo-refresh" eq_refl eq_refl)
    as (Hlookup & Hfound & _).
  - intros item [<- | []]. reflexivity.
  - split; [exact Hlookup | apply Hfound; discriminate].
Defined.

Section Formatting.
(** The client libraries, as in the definitions. *)
Context (Message : Type) (to_dict : Message -> exc (list (string * pyval))).
Context (debug_line : Api.value Message -> exn -> exc string).
Context (hash : string -> Z).
Context (Row : Type) (get_nested_attr : Row -> string -> exc (value Message)).

Local Abbreviation value := (Api.value Message).
Local Abbreviation batch := (Api.batch Row).
Local Abbreviation stream := (Api.stream Row).
Local Abbreviation api_world := (Api.api_world Row).
Local Abbreviation format_value := (Api.format_value Message to_dict debug_line).
Local Abbreviation process_field := (Api.process_field Message to_dict debug_line Row get_nested_attr).
Local Abbreviation process_fields := (Api.process_fields Message to_dict debug_line Row get_nested_attr).
Local Abbreviation process_rows := (Api.process_rows Message to_dict debug_line Row get_nested_attr).
Local Abbreviation process_batches := (Api.process_batches Message to_dict debug_line Row get_nested_attr).
Local Abbreviation drain := (Api.drain Message to_dict debug_line Row get_nested_attr).
Local Abbreviation flatten := (Api.flatten Message to_dict debug_line Row get_nested_attr).
Local Abbreviation execute_gaql := (Api.execute_gaql Message to_dict debug_line hash Row get_nested_attr).
Local Abbreviation reaches_search := (Api.reaches_search hash Row).
Local Abbreviation processes := (Api.processes Message to_dict debug_line Row get_nested_attr).
Local Abbreviation first_failure := (Api.first_failure Message to_dict debug_line Row get_nested_attr).

(** C6: an enum value whose symbolic name is available is formatted as
    that name, a string and not the number; when reading the name raises
    [AttributeError] the number is returned; a value that is neither a
    message nor an enum is returned unchanged. *)
Theorem format_value_enum_and_passthrough :
  (forall e name,
      enum_name e = inr name ->
      format_value (VEnum e) = inr (VPlain (PStr name))
      /\ (VPlain (PStr name) : value) <> VPlain (PInt (enum_number e)))
  /\ (forall e msg,
        enum_name e = inl (AttributeError msg) ->
        format_value (VEnum e) = inr (VPlain (PInt (enum_number e))))
  /\ (forall v, format_value (VPlain v) = inr (VPlain v)).
Proof.
  unfold format_value. split; [|split].
  - intros e name Hname. rewrite Hname. split; [reflexivity | discriminate].
  - intros e msg Hname. rewrite Hname. reflexivity.
  - reflexivity.
Qed.

(** The ways [format_value] ends: with a plain value, or in its handler,
    which returns the value itself once the line is built. *)
Lemma format_value_cases (v : value) :
  (exists plain, format_value v = inr (VPlain plain))
  \/ (exists e, format_value v = exc_bind (debug_line v e) (fun _ => inr v)).
Proof.
  unfold Api.format_value, exc_try, exc_bind, any_Exception.
  destruct v as [m|e|p]; [destruct (to_dict m) | destruct (enum_name e) as [x|] |];
    try destruct (is_AttributeError x); eauto.
Qed.


Lemma execute_gaql_reaches (w : api_world) (query customer_id : string)
      (login : option string) (c c' : client) (s : stream) :
  reaches_search w query customer_id login c c' s ->
  execute_gaql w query customer_id login c = (flatten w s, c').
Proof.
  intros (refresh_token & access_token & ads_client
          & Hhdr & Hne & Htok & Htruthy & Hclient & ->).
  unfold execute_gaql. rewrite Hhdr.
  destruct (String.eqb_spec refresh_token EmptyString); [contradiction|].
  unfold bind, lift. rewrite Htok, Htruthy. simpl. rewrite Hclient. reflexivity.
Qed.

Lemma process_field_resolved (row : Row) (row_data : gmap string value)
      (field_path : string) (raw_value formatted_value : value) :
  get_nested_attr row (python_field_path field_path) = inr raw_value ->
  format_value raw_value = inr formatted_value ->
  process_field row row_data field_path
  = inr (<[field_path := formatted_value]> row_data).
Proof.
  intros Hraw Hf. unfold Api.process_field. rewrite Hraw. simpl. rewrite Hf. reflexivity.
Qed.

Lemma process_field_unformatted (row : Row) (row_data : gmap string value)
      (field_path : string) (raw_value : value) (e : exn) :
  get_nested_attr row (python_field_path field_path) = inr raw_value ->
  format_value raw_value = inl e ->
  process_field row row_data field_path = inl e.
Proof.
  intros Hraw Hf. unfold Api.process_field. rewrite Hraw. simpl. rewrite Hf. reflexivity.
Qed.

Lemma process_field_failed (row : Row) (row_data : gmap string value)
      (field_path : string) (e : exn) :
  get_nested_attr row (python_field_path field_path) = inl e ->
  process_field row row_data field_path = inl e.
Proof. intros Hraw. unfold process_field. rewrite Hraw. reflexivity. Qed.

Lemma process_fields_app (row : Row) (ps1 ps2 : list string)
      (row_data : gmap string value) :
  process_fields row (ps1 ++ ps2) row_data
  = exc_bind (process_fields row ps1 row_data) (process_fields row ps2).
Proof.
  revert row_data. induction ps1 as [|p ps1 IH]; intros row_data; simpl; [reflexivity|].
  destruct (process_field row row_data p); simpl; [reflexivity | apply IH].
Qed.

Lemma process_fields_ok (row : Row) (paths : list string) :
  (forall p, In p paths -> processes row p) ->
  forall row_data, exists row_data', process_fields row paths row_data = inr row_data'.
Proof.
  induction paths as [|p paths IH]; intros Hall row_data; simpl; [eauto|].
  destruct (Hall p) as (raw & f & Hraw & Hf); [now left|].
  rewrite (process_field_resolved row row_data p raw f Hraw Hf).
  simpl. apply IH. intros p' Hin. apply Hall. now right.
Qed.

Lemma process_fields_first (row : Row) (ps1 ps2 : list string) (p : string) (e : exn) :
  (forall p', In p' ps1 -> processes row p') ->
  (forall row_data, process_field row row_data p = inl e) ->
  forall row_data, process_fields row (ps1 ++ p :: ps2) row_data = inl e.
Proof.
  intros Hbefore Hfail row_data. rewrite process_fields_app.
  destruct (process_fields_ok row ps1 Hbefore row_data) as [d ->]. simpl.
  now rewrite (Hfail d).
Qed.

Lemma process_fields_aborts (row : Row) (paths : list string) (p : string) (e : exn) :
  In p paths ->
  get_nested_attr row (python_field_path p) = inl e ->
  forall row_data, exists e', process_fields row paths row_data = inl e'.
Proof.
  induction paths as [|p0 paths IH]; intros Hin Hfail row_data; [contradiction|].
  simpl. destruct (process_field row row_data p0) as [e0|d] eqn:Hp0; simpl; [eauto|].
  destruct Hin as [-> | Hin]; [|now apply IH].
  rewrite (process_field_failed row row_data p e Hfail) in Hp0. discriminate.
Qed.

Lemma process_rows_app (paths : list string) (rs1 rs2 : list Row)
      (output : list (gmap string value)) :
  process_rows paths (rs1 ++ rs2) output
  = exc_bind (process_rows paths rs1 output) (process_rows paths rs2).
Proof.
  revert output. induction rs1 as [|r rs1 IH]; intros output; simpl; [reflexivity|].
  destruct (process_fields r paths ∅); simpl; [reflexivity | apply IH].
Qed.

Lemma process_rows_ok (paths : list string) (rows : list Row) :
  (forall row p, In row rows -> In p paths -> processes row p) ->
  forall output, exists output', process_rows paths rows output = inr output'.
Proof.
  induction rows as [|r rows IH]; intros Hall output; simpl; [eauto|].
  destruct (process_fields_ok r paths (fun p Hp => Hall r p (or_introl eq_refl) Hp) ∅)
    as [d ->].
  simpl. apply IH. intros row p Hrow. apply Hall. now right.
Qed.

Lemma process_rows_aborts (paths : list string) (rows : list Row)
      (row : Row) (p : string) (e : exn) :
  In row rows -> In p paths ->
  get_nested_attr row (python_field_path p) = inl e ->
  forall output, exists e', process_rows paths rows output = inl e'.
Proof.
  induction rows as [|r rows IH]; intros Hrow Hp Hfail output; [contradiction|].
  simpl. destruct (process_fields r paths ∅) as [e0|d] eqn:Hr; simpl; [eauto|].
  destruct Hrow as [-> | Hrow]; [|now apply IH].
  destruct (process_fields_aborts row paths p e Hp Hfail ∅) as [e' He'].
  congruence.
Qed.

Lemma process_batches_app (bs1 bs2 : list batch) (output : list (gmap string value)) :
  process_batches (bs1 ++ bs2) output
  = exc_bind (process_batches bs1 output) (process_batches bs2).
Proof.
  revert output. induction bs1 as [|b bs1 IH]; intros output; simpl; [reflexivity|].
  destruct (process_rows (field_mask_paths b) (results b) output); simpl;
    [reflexivity | apply IH].
Qed.

Lemma process_batches_ok (batches : list batch) :
  (forall b row p, In b batches -> In row (results b) -> In p (field_mask_paths b) ->
                   processes row p) ->
  forall output, exists output', process_batches batches output = inr output'.
Proof.
  induction batches as [|b batches IH]; intros Hall output; simpl; [eauto|].
  destruct (process_rows_ok (field_mask_paths b) (results b)
              (fun row p => Hall b row p (or_introl eq_refl)) output) as [out ->].
  simpl. apply IH. intros b' row p Hb. apply Hall. now right.
Qed.

Lemma process_batches_aborts (batches : list batch) (b : batch)
      (row : Row) (p : string) (e : exn) :
  In b batches -> In row (results b) -> In p (field_mask_paths b) ->
  get_nested_attr row (python_field_path p) = inl e ->
  forall output, exists e', process_batches batches output = inl e'.
Proof.
  induction batches as [|b0 batches IH]; intros Hb Hrow Hp Hfail output; [contradiction|].
  simpl.
  destruct (process_rows (field_mask_paths b0) (results b0) output) as [e0|out] eqn:Hb0;
    simpl; [eauto|].
  destruct Hb as [-> | Hb]; [|now apply IH].
  destruct (process_rows_aborts _ _ row p e Hrow Hp Hfail output) as [e' He'].
  congruence.
Qed.

Lemma process_batches_first (bs1 bs2 : list batch) (b : batch)
      (rs1 rs2 : list Row) (row : Row) (ps1 ps2 : list string) (p : string) (e : exn) :
  results b = (rs1 ++ row :: rs2)%list ->
  field_mask_paths b = (ps1 ++ p :: ps2)%list ->
  first_failure bs1 b rs1 row ps1 ->
  (forall row_data, process_field row row_data p = inl e) ->
  process_batches (bs1 ++ b :: bs2) [] = inl e.
Proof.
  intros Hrows Hpaths (Hbs & Hrs & Hps) Hfail.
  rewrite process_batches_app.
  destruct (process_batches_ok bs1 Hbs []) as [out1 ->]. simpl.
  rewrite Hrows, process_rows_app.
  destruct (process_rows_ok (field_mask_paths b) rs1 Hrs out1) as [out2 ->]. simpl.
  rewrite Hpaths. now rewrite (process_fields_first row ps1 ps2 p e Hps Hfail).
Qed.

Lemma error_details_flat_map (errors : list GoogleAdsError) :
  error_details errors = flat_map error_lines errors.
Proof.
  unfold error_details.
  enough (G : forall acc,
             fold_left (fun details error => (details ++ error_lines error)%list)
                       errors acc
             = (acc ++ flat_map error_lines errors)%list) by apply (G []).
  induction errors as [|e errors IH]; intros acc; simpl.
  - now rewrite List.app_nil_r.
  - rewrite IH. now rewrite <- List.app_assoc.
Qed.

Lemma full_error_joined (w : api_world) (errors : list GoogleAdsError) :
  errors <> [] ->
  full_error w errors = join newline (flat_map error_lines errors).
Proof.
  intros Hne. unfold full_error. rewrite error_details_flat_map.
  destruct errors as [|e errors]; [contradiction|]. reflexivity.
Qed.

Lemma error_lines_head (error : GoogleAdsError) :
  exists more, error_lines error = ("Error: " +:+ message error) :: more.
Proof. unfold error_lines. simpl. eauto. Qed.

Lemma drain_failure (s : stream) (e : exn) :
  (forall b row p, In b (delivered s) -> In row (results b) ->
                   In p (field_mask_paths b) -> processes row p) ->
  failure s = Some e ->
  drain s = inl e.
Proof.
  intros Hrows Hfailure. unfold Api.drain.
  destruct (process_batches_ok (delivered s) Hrows []) as [output ->].
  simpl. now rewrite Hfailure.
Qed.

(** C7, amended: when the streaming call, or the iteration over its
    batches after rows that were all processed, raises a
    [GoogleAdsException], the call raises one [RuntimeError] caused by it.
    When its list of sub-errors is not empty the message is the lines of
    the sub-errors, in order, joined by newlines; with two sub-errors it
    holds the first message, then a newline and the second message, in
    that order.  When the list is empty the message is [str()] of that
    list. *)
Theorem api_failure_message
        (w : api_world) (query customer_id : string) (login : option string)
        (c c' : client) (s : stream) (errors : list GoogleAdsError) :
  reaches_search w query customer_id login c c' s ->
  (forall b row p, In b (delivered s) -> In row (results b) ->
                   In p (field_mask_paths b) -> processes row p) ->
  failure s = Some (GoogleAdsException errors) ->
  (errors <> [] ->
   execute_gaql w query customer_id login c
   = (inl (RuntimeError (join newline (flat_map error_lines errors))
                        (Some (GoogleAdsException errors))), c'))
  /\ (forall e1 e2,
        errors = [e1; e2] ->
        exists rest1 rest2,
          join newline (flat_map error_lines errors)
          = "Error: " +:+ message e1 +:+ rest1 +:+ newline
            +:+ "Error: " +:+ message e2 +:+ rest2)
  /\ (errors = [] ->
      execute_gaql w query customer_id login c
      = (inl (RuntimeError (str_errors w [])
                           (Some (GoogleAdsException []))), c')).
Proof.
  intros Hreach Hrows Hfailure.
  rewrite (execute_gaql_reaches _ _ _ _ _ _ _ Hreach).
  unfold Api.flatten. rewrite (drain_failure s _ Hrows Hfailure). simpl.
  split; [|split].
  - intros Hne. now rewrite (full_error_joined w errors Hne).
  - intros e1 e2 ->. cbn [flat_map]. rewrite List.app_nil_r.
    destruct (error_lines_head e1) as [more1 ->].
    destruct (error_lines_head e2) as [more2 ->].
    rewrite (join_app newline (_ :: more1) (_ :: more2)) by discriminate.
    destruct (join_cons newline ("Error: " +:+ message e1) more1) as [t1 ->].
    destruct (join_cons newline ("Error: " +:+ message e2) more2) as [t2 ->].
    exists t1, t2. now rewrite !str_app_assoc.
  - intros ->. reflexivity.
Qed.

(** C9: when resolving a field path of the batch's field mask against a
    row of the response fails, the call raises and returns no list; when
    nothing processed before that field failed, the exception raised is
    that failure itself (wrapped by the [GoogleAdsException] handler only
    in case it is a [GoogleAdsException]). *)
Theorem field_resolution_failure_aborts
        (w : api_world) (query customer_id : string) (login : option string)
        (c c' : client) (s : stream)
        (b : batch) (row : Row) (p : string) (e : exn) :
  reaches_search w query customer_id login c c' s ->
  In b (delivered s) -> In row (results b) -> In p (field_mask_paths b) ->
  get_nested_attr row (python_field_path p) = inl e ->
  (exists e', execute_gaql w query customer_id login c = (inl e', c'))
  /\ (forall bs1 bs2 rs1 rs2 ps1 ps2,
        delivered s = (bs1 ++ b :: bs2)%list ->
        results b = (rs1 ++ row :: rs2)%list ->
        field_mask_paths b = (ps1 ++ p :: ps2)%list ->
        first_failure bs1 b rs1 row ps1 ->
        execute_gaql w query customer_id login c
        = (inl (if is_GoogleAdsException e
                then RuntimeError (full_error w (failure_errors e)) (Some e)
                else e), c')).
Proof.
  intros Hreach Hb Hrow Hp Hfail.
  rewrite (execute_gaql_reaches _ _ _ _ _ _ _ Hreach). split.
  - destruct (process_batches_aborts _ b row p e Hb Hrow Hp Hfail []) as [e' He'].
    unfold flatten, drain. rewrite He'. simpl.
    destruct (is_GoogleAdsException e'); eauto.
  - intros bs1 bs2 rs1 rs2 ps1 ps2 Hbs Hrs Hps Hfirst.
    unfold flatten, drain.
    rewrite Hbs, (process_batches_first bs1 bs2 b rs1 rs2 row ps1 ps2 p e
                    Hrs Hps Hfirst
                    (fun row_data => process_field_failed row row_data p e Hfail)).
    simpl. destruct (is_GoogleAdsException e); reflexivity.
Qed.


End Formatting.

Lemma demo_reaches (s : stream demo_row) :
  reaches_search demo_hash demo_row (demo_api_world s) demo_query "1234567890" None
    fresh_client demo_after s.
Proof.
  exists "1//0demo-refresh", (PStr "ya29.fresh"),
    {| login_customer_id := None; search_stream := fun _ _ _ => s |}.
  split; [reflexivity|]. split; [discriminate|]. split; [reflexivity|].
  split; [reflexivity|]. split; reflexivity.
Defined.

Example demo_missing_header :
  execute_gaql demo_message demo_to_dict demo_debug_line demo_hash demo_row demo_get_nested_attr
    {| get_http_headers := inr ∅;
       oauth := demo_world 1000;
       get_ads_client := fun _ => inl (FileNotFoundError "google-ads.yaml");
       str_errors := fun _ => "[]" |}
    demo_query "1234567890" None fresh_client
  = (inl (PlainException "Missing X-OAuth-Refresh-Token header for authentication"),
     fresh_client).
Proof. reflexivity. Qed.

Example demo_rows_are_flattened :
  fst (demo_run {| delivered := [ {| field_mask_paths := ["campaign.id"; "campaign.status"];
                                     results := [full_row] |} ];
                   failure := None |})
  = inr [ {[ "campaign.id" := VPlain (PInt 42);
             "campaign.status" := VPlain (PStr "ENABLED") ]} ].
Proof. vm_compute. reflexivity. Qed.

Lemma format_value_enum_and_passthrough_witness :
  (format_value demo_message demo_to_dict demo_debug_line (VEnum enabled) = inr (VPlain (PStr "ENABLED"))
   /\ VPlain (Message := demo_message) (PStr "ENABLED") <> VPlain (PInt (enum_number enabled)))
  /\ format_value demo_message demo_to_dict demo_debug_line (VEnum unnamed) = inr (VPlain (PInt 7))
  /\ format_value demo_message demo_to_dict demo_debug_line (VPlain (PStr "Brand"))
     = inr (VPlain (PStr "Brand")).
Proof.
  split; [|split].
  - apply (proj1 (format_value_enum_and_passthrough demo_message demo_to_dict demo_debug_line) enabled).
    reflexivity.
  - apply (proj1 (proj2 (format_value_enum_and_passthrough demo_message demo_to_dict demo_debug_line))
             unnamed "name").
    reflexivity.
  - apply (proj2 (proj2 (format_value_enum_and_passthrough demo_message demo_to_dict demo_debug_line))).
Defined.

(** C7, as stated, fails on a failure whose list of sub-errors is empty:
    the message is [str()] of the empty list, not the empty join. *)
Lemma empty_failure_message_is_not_joined :
  fst (demo_run {| delivered := []; failure := Some (GoogleAdsException []) |})
  = inl (RuntimeError "[]" (Some (GoogleAdsException [])))
  /\ join newline (flat_map error_lines []) = EmptyString
  /\ "[]" <> join newline (flat_map error_lines []).
Proof. split; [reflexivity|]. split; [reflexivity | discriminate]. Qed.

Lemma api_failure_message_witness :
  (demo_run {| delivered := [ {| field_mask_paths := ["campaign.id"];
                                 results := [full_row; short_row] |} ];
               failure := Some (GoogleAdsException [quota_error; query_error]) |}
   = (inl (RuntimeError
             (join newline (flat_map error_lines [quota_error; query_error]))
             (Some (GoogleAdsException [quota_error; query_error]))), demo_after)
   /\ exists rest1 rest2,
        join newline (flat_map error_lines [quota_error; query_error])
        = "Error: " +:+ message quota_error +:+ rest1 +:+ newline
          +:+ "Error: " +:+ message query_error +:+ rest2)
  /\ demo_run {| delivered := []; failure := Some (GoogleAdsException []) |}
     = (inl (RuntimeError "[]" (Some (GoogleAdsException []))), demo_after).
Proof.
  split.
  - destruct (api_failure_message demo_message demo_to_dict demo_debug_line demo_hash
                demo_row demo_get_nested_attr
                (demo_api_world
                   {| delivered := [ {| field_mask_paths := ["campaign.id"];
                                        results := [full_row; short_row] |} ];
                      failure := Some (GoogleAdsException
                                         [quota_error; query_error]) |})
                demo_query "1234567890" None fresh_client demo_after _
                [quota_error; query_error] (demo_reaches _))
      as (Hraised & Htwo & _).
    + intros b row p [<- | []] [<- | [<- | []]] [<- | []];
        do 2 eexists; split; reflexivity.
    + reflexivity.
    + split; [apply Hraised; discriminate | exact (Htwo _ _ eq_refl)].
  - apply (api_failure_message demo_message demo_to_dict demo_debug_line demo_hash
             demo_row demo_get_nested_attr
             (demo_api_world {| delivered := [];
                                failure := Some (GoogleAdsException []) |})
             demo_query "1234567890" None fresh_client demo_after _ []
             (demo_reaches _)).
    + intros b row p [].
    + reflexivity.
    + reflexivity.
Defined.

Lemma field_resolution_failure_aborts_witness :
  demo_run {| delivered := [demo_batch]; failure := None |}
  = (inl (AttributeError "campaign.name"), demo_after).
Proof.
  apply (proj2 (field_resolution_failure_aborts demo_message demo_to_dict demo_debug_line demo_hash
                  demo_row demo_get_nested_attr
                  (demo_api_world {| delivered := [demo_batch]; failure := None |})
                  demo_query "1234567890" None fresh_client demo_after _
                  demo_batch short_row "campaign.name" (AttributeError "campaign.name")
                  (demo_reaches _)
                  (or_introl eq_refl) (or_intror (or_introl eq_refl))
                  (or_intror (or_introl eq_refl)) eq_refl)
           [] [] [full_row] [] ["campaign.id"] []);
    try reflexivity.
  split; [|split].
  - intros b' row' p' [].
  - intros row' p' [<- | []] [<- | [<- | []]]; do 2 eexists; split; reflexivity.
  - intros p' [<- | []]. do 2 eexists; split; reflexivity.
Defined.



End ApiFacts.

(** * The rest of the OAuth client *)

Module OAuthInstanceFacts.
Import PyStr PyStrFacts Py OAuthClient OAuthClientFacts Eff OAuthInstance.

Section WithHash.

(** Python's built-in [hash] on [str]. *)
Context (hash : string -> Z).

Local Abbreviation _get_cache_key_for_refresh_token :=
  (OAuthClient._get_cache_key_for_refresh_token hash).
Local Abbreviation exchange := (OAuthClient.exchange hash).
Local Abbreviation _generate_access_token_from_refresh :=
  (OAuthClient._generate_access_token_from_refresh hash).
Local Abbreviation no_unexpired_entry := (OAuthClient.no_unexpired_entry hash).
Local Abbreviation clear_cache_for_refresh_token :=
  (OAuthInstance.clear_cache_for_refresh_token hash).
Local Abbreviation get_access_token := (OAuthInstance.get_access_token hash).
Local Abbreviation token_from_request := (OAuthInstance.token_from_request hash).
Local Abbreviation refresh_token_if_needed := (OAuthInstance.refresh_token_if_needed hash).

Ltac unfold_exchange :=
  unfold OAuthClient.exchange, try_except, OAuthClient.exchange_body,
    bind, lift, emit, ret, cache_set in *;
  simpl in *.

Ltac unfold_generate :=
  unfold OAuthClient._generate_access_token_from_refresh, cache_hit, cache_get in *;
  unfold_exchange.

Lemma cache_key_prefix (refresh_token : string) :
  String.prefix "refresh_token_" (_get_cache_key_for_refresh_token refresh_token) = true.
Proof. apply prefix_refl_app. Qed.

Lemma cache_key_eq (rt1 rt2 : string) :
  _get_cache_key_for_refresh_token rt1 = _get_cache_key_for_refresh_token rt2
  <-> Z.abs (hash rt1) = Z.abs (hash rt2).
Proof.
  unfold OAuthClient._get_cache_key_for_refresh_token. split.
  - intros Heq. apply (inj (String.app "refresh_token_")) in Heq.
    now apply (inj pretty) in Heq.
  - intros ->. reflexivity.
Qed.

Lemma generate_cache_effect (w : world) (refresh_token : string) (c : client) :
  let c' := snd (_generate_access_token_from_refresh w refresh_token c) in
  token_cache c' = token_cache c
  \/ exists entry,
       token_cache c'
       = <[_get_cache_key_for_refresh_token refresh_token := entry]> (token_cache c).
Proof.
  unfold_generate.
  repeat (case_match; simplify_eq/=); eauto.
Qed.

Lemma exchange_changes_trace (w : world) (refresh_token : string) (c : client) :
  trace (snd (exchange w refresh_token c)) <> trace c.
Proof.
  destruct (exchange_trace_starts hash w refresh_token c) as [later Hlater].
  rewrite Hlater. intros Heq.
  apply (f_equal (@List.length event)) in Heq.
  rewrite List.length_app in Heq. simpl in Heq. lia.
Qed.

Lemma clear_cache_effect (refresh_token : string) (c : client) :
  token_cache (snd (clear_cache_for_refresh_token refresh_token c))
  = delete (_get_cache_key_for_refresh_token refresh_token) (token_cache c)
  /\ trace (snd (clear_cache_for_refresh_token refresh_token c)) = trace c
  /\ fst (clear_cache_for_refresh_token refresh_token c) = inr tt.
Proof.
  unfold OAuthInstance.clear_cache_for_refresh_token, bind, cache_get, cache_delete, ret.
  destruct (token_cache c !! _) eqn:Hlook; simpl; repeat split; try reflexivity.
  symmetry. now apply delete_id.
Qed.

(** X1: clearing the cache for a refresh token removes exactly its entry
    and touches nothing else, and the next call for that token is an
    exchange, however fresh the removed entry was. *)
Theorem clear_cache_forces_exchange
        (w : world) (refresh_token : string) (c : client) :
  let c1 := snd (clear_cache_for_refresh_token refresh_token c) in
  fst (clear_cache_for_refresh_token refresh_token c) = inr tt
  /\ token_cache c1
     = delete (_get_cache_key_for_refresh_token refresh_token) (token_cache c)
  /\ trace c1 = trace c
  /\ _generate_access_token_from_refresh w refresh_token c1
     = exchange w refresh_token c1.
Proof.
  destruct (clear_cache_effect refresh_token c) as (Hcache & Htrace & Hres).
  intros c1. repeat split; try assumption.
  apply generate_miss. unfold OAuthClient.no_unexpired_entry.
  fold c1 in Hcache. rewrite Hcache, lookup_delete_eq. exact I.
Qed.

(** X2: the cache key depends on the refresh token only through the
    absolute value of its hash, so two refresh tokens whose hashes agree up
    to sign share one cache entry: the token obtained for the first is
    handed to a call made with the second, while the entry is unexpired,
    without any exchange. *)
Theorem colliding_tokens_share_entry
        (w : world) (rt1 rt2 : string) (c c1 : client) (token : pyval) :
  Z.abs (hash rt1) = Z.abs (hash rt2) ->
  no_unexpired_entry c rt1 (time_at_check w) ->
  _generate_access_token_from_refresh w rt1 c = (inr token, c1) ->
  token <> PNone ->
  exists entry,
    token_cache c1 !! _get_cache_key_for_refresh_token rt2 = Some entry
    /\ access_token entry = token
    /\ forall w2 : world,
         expires_at entry > time_at_check w2 ->
         _generate_access_token_from_refresh w2 rt2 c1 = (inr token, c1).
Proof.
  intros Hcollide Hmiss Hrun Hsome.
  apply cache_key_eq in Hcollide.
  rewrite (generate_miss hash _ _ _ Hmiss) in Hrun.
  destruct (exchange_success_stores hash _ _ _ _ _ Hrun Hsome) as (entry & Hcache & Htok).
  exists entry. rewrite <- Hcollide. split; [|split].
  - rewrite Hcache. apply lookup_insert_eq.
  - exact Htok.
  - intros w2 Hlive. rewrite <- Htok. apply generate_hit; [|exact Hlive].
    rewrite <- Hcollide, Hcache. apply lookup_insert_eq.
Qed.

(** X3: a call made with one refresh token never changes the cache entry
    of a refresh token whose hash has another absolute value. *)
Theorem distinct_tokens_are_isolated
        (w : world) (rt1 rt2 : string) (c : client) :
  Z.abs (hash rt1) <> Z.abs (hash rt2) ->
  token_cache (snd (_generate_access_token_from_refresh w rt1 c))
    !! _get_cache_key_for_refresh_token rt2
  = token_cache c !! _get_cache_key_for_refresh_token rt2.
Proof.
  intros Hdistinct.
  destruct (generate_cache_effect w rt1 c) as [-> | [entry ->]]; [reflexivity|].
  apply lookup_insert_ne. intros Heq. apply Hdistinct. now apply cache_key_eq.
Qed.

Lemma exchange_stores_expiry (w : world) (refresh_token : string)
      (c c' : client) (token : pyval) :
  exchange w refresh_token c = (inr token, c') ->
  token <> PNone ->
  exists resp token_data expires_in seconds,
    provider_answers w refresh_token resp
    /\ json resp = inr token_data
    /\ dict_get token_data "expires_in" (PInt 3600) = inr expires_in
    /\ as_number expires_in = inr seconds
    /\ token_cache c'
       = <[_get_cache_key_for_refresh_token refresh_token :=
             {| access_token := token;
                expires_at := time_at_store w + seconds - 60;
                refresh_token_hash := take 10 refresh_token |}]> (token_cache c).
Proof.
  intros Hrun Hsome. unfold provider_answers. unfold_exchange.
  repeat (case_match; simplify_eq/=); try congruence.
  do 4 eexists. split; [do 3 eexists; eauto|]. eauto.
Qed.

(** X4: the entry stored by a successful exchange expires 60 seconds
    before the provider's [expires_in] (3600 when the answer has none) has
    run from the time of storing; a later call is answered from the cache,
    with nothing read and nothing sent, exactly while the clock is below
    that instant. *)
Theorem cached_entry_lifetime
        (w : world) (refresh_token : string) (c c1 : client) (token : pyval) :
  no_unexpired_entry c refresh_token (time_at_check w) ->
  _generate_access_token_from_refresh w refresh_token c = (inr token, c1) ->
  token <> PNone ->
  exists resp token_data expires_in seconds,
    provider_answers w refresh_token resp
    /\ json resp = inr token_data
    /\ dict_get token_data "expires_in" (PInt 3600) = inr expires_in
    /\ as_number expires_in = inr seconds
    /\ token_cache c1 !! _get_cache_key_for_refresh_token refresh_token
       = Some {| access_token := token;
                 expires_at := time_at_store w + seconds - 60;
                 refresh_token_hash := take 10 refresh_token |}
    /\ forall w2 : world,
         _generate_access_token_from_refresh w2 refresh_token c1 = (inr token, c1)
         <-> time_at_check w2 < time_at_store w + seconds - 60.
Proof.
  intros Hmiss Hrun Hsome.
  rewrite (generate_miss hash _ _ _ Hmiss) in Hrun.
  destruct (exchange_stores_expiry _ _ _ _ _ Hrun Hsome)
    as (resp & data & v & seconds & Hans & Hjson & Hget & Hnum & Hcache).
  exists resp, data, v, seconds. repeat (split; [assumption|]).
  assert (Hlook : token_cache c1 !! _get_cache_key_for_refresh_token refresh_token
                  = Some {| access_token := token;
                            expires_at := time_at_store w + seconds - 60;
                            refresh_token_hash := take 10 refresh_token |}).
  { rewrite Hcache. apply lookup_insert_eq. }
  split; [exact Hlook|].
  intros w2. split.
  - intros Hserved.
    destruct (Z.lt_ge_cases (time_at_check w2) (time_at_store w + seconds - 60))
      as [Hlt | Hge]; [exact Hlt|].
    exfalso.
    rewrite (generate_miss hash w2 refresh_token c1) in Hserved.
    + apply (exchange_changes_trace w2 refresh_token c1). now rewrite Hserved.
    + unfold OAuthClient.no_unexpired_entry. rewrite Hlook. simpl. lia.
  - intros Hlt.
    apply (generate_hit hash w2 refresh_token c1 _ Hlook). simpl. lia.
Qed.

Lemma generate_keeps_keys (w : world) (refresh_token : string) (c : client) :
  keys_well_formed c ->
  keys_well_formed (snd (_generate_access_token_from_refresh w refresh_token c)).
Proof.
  intros Hwf key entry.
  destruct (generate_cache_effect w refresh_token c) as [-> | [e ->]]; [apply Hwf|].
  rewrite lookup_insert. case_decide as Hkey.
  - intros _. subst key. apply cache_key_prefix.
  - apply Hwf.
Qed.

(** X5: the cache only ever holds keys that begin with [refresh_token_]:
    the empty cache of a new client does, and both the exchange and the
    clearing of an entry keep it so. *)
Theorem cache_keys_stay_well_formed
        (w : world) (refresh_token : string) (c : client)
        (os_environ : gmap string string) :
  keys_well_formed (core (DynamicOAuthClient os_environ))
  /\ (keys_well_formed c ->
      keys_well_formed (snd (_generate_access_token_from_refresh w refresh_token c))
      /\ keys_well_formed (snd (clear_cache_for_refresh_token refresh_token c))).
Proof.
  split.
  - intros key entry Hlook. simpl in Hlook. now rewrite lookup_empty in Hlook.
  - intros Hwf. split.
    + now apply generate_keeps_keys.
    + intros key entry.
      destruct (clear_cache_effect refresh_token c) as [-> _].
      intros Hlook. apply lookup_delete_Some in Hlook as [_ Hlook]. eapply Hwf, Hlook.
Qed.

Ltac unfold_st :=
  unfold st_bind, st_try, st_zoom, st_ret, st_raise, st_lift, st_get, st_modify in *;
  simpl in *.

Lemma set_core_same (i : instance) : set_core i (core i) = i.
Proof. destruct i. reflexivity. Qed.

Lemma set_core_twice (i : instance) (c c' : client) :
  set_core (set_core i c) c' = set_core i c'.
Proof. reflexivity. Qed.

Lemma token_from_request_effect (w : request_world) (i : instance) :
  exists r c',
    token_from_request w i = (inr r, set_core i c')
    /\ match r with
       | Some token => truthy token = true
       | None => True
       end.
Proof.
  unfold OAuthInstance.token_from_request. unfold_st.
  destruct (flask_headers w) as [headers|];
    [|exists None, (core i); now rewrite set_core_same].
  destruct (opt_truthy (headers "X-OAuth-Access-Token")) eqn:Htoken.
  { eexists (Some _), (core i). rewrite set_core_same. split; [reflexivity|].
    destruct (headers "X-OAuth-Access-Token") as [t|]; [exact Htoken | discriminate]. }
  destruct (opt_truthy (headers "X-OAuth-Refresh-Token"));
    [|exists None, (core i); now rewrite set_core_same].
  destruct (OAuthClient._generate_access_token_from_refresh hash (base w) _ (core i))
    as [[e|v] c'].
  - exists None, c'. split; [reflexivity | exact I].
  - destruct (truthy v) eqn:Hv.
    + exists (Some v), c'. split; [reflexivity | exact Hv].
    + exists None, c'. split; [reflexivity | exact I].
Qed.

Lemma get_access_token_effect (w : request_world) (i : instance) :
  exists token c',
    get_access_token w i = (inr token, set_core i c')
    /\ (token = PNone \/ truthy token = true).
Proof.
  unfold OAuthInstance.get_access_token.
  destruct (token_from_request_effect w i) as (r & c' & Hreq & Hr).
  unfold st_bind at 1. rewrite Hreq.
  destruct r as [token|].
  - exists token, c'. split; [reflexivity | now right].
  - unfold_st.
    destruct (truthy (_access_token i)) eqn:Htok; simpl;
      [|exists PNone, c'; split; [reflexivity | now left]].
    destruct (expiry_truthy (_token_expires_at i)); simpl;
      [|exists PNone, c'; split; [reflexivity | now left]].
    destruct (_ <? _).
    + exists (_access_token i), c'. split; [reflexivity | now right].
    + exists PNone, c'. split; [reflexivity | now left].
Qed.

(** X6: [get_access_token] never raises; it returns [None] or a truthy
    token; and of the object it can change only the cache and trace: the
    settings, the process-wide token with its expiry, and the log of
    requests to the external API are left as they were. *)
Theorem get_access_token_total (w : request_world) (i : instance) :
  exists token i',
    get_access_token w i = (inr token, i')
    /\ (token = PNone \/ truthy token = true)
    /\ oauth_api_url i' = oauth_api_url i
    /\ oauth_api_token i' = oauth_api_token i
    /\ google_ads_account_id i' = google_ads_account_id i
    /\ _access_token i' = _access_token i
    /\ _token_expires_at i' = _token_expires_at i
    /\ external_requests i' = external_requests i.
Proof.
  destruct (get_access_token_effect w i) as (token & c' & Hrun & Htoken).
  exists token, (set_core i c'). split; [exact Hrun|]. split; [exact Htoken|].
  repeat split.
Qed.

(** X7: a non-empty [X-OAuth-Access-Token] header of the request is
    returned as it is, before anything else is looked at: the cache is not
    read and nothing is exchanged, whatever the other headers and the state
    of the object. *)
Theorem header_access_token_wins
        (w : request_world) (i : instance)
        (headers : string -> option string) (token : string) :
  flask_headers w = Some headers ->
  headers "X-OAuth-Access-Token" = Some token ->
  token <> EmptyString ->
  get_access_token w i = (inr (PStr token), i).
Proof.
  intros Hreq Htoken Hne.
  unfold OAuthInstance.get_access_token, OAuthInstance.token_from_request. unfold_st.
  rewrite Hreq, Htoken. simpl.
  destruct (String.eqb_spec token EmptyString); [contradiction | reflexivity].
Qed.

Lemma fallback_eval (w : request_world) (i : instance) :
  (forall j, token_from_request w j = (inr None, j)) ->
  get_access_token w i
  = (inr (if truthy (_access_token i) && expiry_truthy (_token_expires_at i)
             && (time_at_fallback w <? from_option id 0 (_token_expires_at i) - 60)
          then _access_token i else PNone), i).
Proof.
  intros Hnone.
  unfold OAuthInstance.get_access_token, st_bind at 1. rewrite Hnone. unfold_st.
  destruct (truthy (_access_token i)); simpl; [|reflexivity].
  destruct (expiry_truthy (_token_expires_at i)); simpl; [|reflexivity].
  destruct (_ <? _); reflexivity.
Qed.

Lemma no_request_no_token (w : request_world) :
  flask_headers w = None ->
  forall j, token_from_request w j = (inr None, j).
Proof.
  intros Hreq j. unfold OAuthInstance.token_from_request. now rewrite Hreq.
Qed.

(** X8: outside a request, or when the request carries neither header,
    [get_access_token] touches nothing and answers from the process-wide
    token alone: that token when it is set and the clock is more than 60
    seconds short of its recorded expiry, [None] otherwise.  A new object
    has no such token, so it answers [None]. *)
Theorem fallback_token_window (w : request_world) (i : instance) :
  (flask_headers w = None
   \/ exists headers,
        flask_headers w = Some headers
        /\ opt_truthy (headers "X-OAuth-Access-Token") = false
        /\ opt_truthy (headers "X-OAuth-Refresh-Token") = false) ->
  get_access_token w i
  = (inr (if truthy (_access_token i) && expiry_truthy (_token_expires_at i)
             && (time_at_fallback w <? from_option id 0 (_token_expires_at i) - 60)
          then _access_token i else PNone), i)
  /\ forall os_environ,
       get_access_token w (DynamicOAuthClient os_environ)
       = (inr PNone, DynamicOAuthClient os_environ).
Proof.
  intros Hreq.
  assert (Hnone : forall j, token_from_request w j = (inr None, j)).
  { intros j. unfold OAuthInstance.token_from_request. unfold_st.
    destruct Hreq as [-> | (headers & -> & -> & ->)]; reflexivity. }
  split.
  - now apply fallback_eval.
  - intros os_environ. now rewrite fallback_eval.
Qed.

Lemma external_key_absent (c : client) (account : string) :
  keys_well_formed c ->
  token_cache c !! ("google_ads_" +:+ account) = None.
Proof.
  intros Hwf. destruct (token_cache c !! _) as [entry|] eqn:Hlook; [|reflexivity].
  apply Hwf in Hlook. discriminate Hlook.
Qed.

(** X9: [_get_token_from_external_api] does nothing when the API url or
    the account id is not set.  When both are set, and the cache holds only
    keys made for refresh tokens, it never raises, it sends one request on
    every call -- its cache lookup never succeeds and it never stores
    anything in the cache -- and a token it returns is also kept as the
    process-wide token. *)
Theorem external_fetch_bypasses_cache (w : request_world) (i : instance) :
  (opt_truthy (oauth_api_url i) && opt_truthy (google_ads_account_id i) = false ->
   _get_token_from_external_api w i = (inr PNone, i))
  /\ (opt_truthy (oauth_api_url i) && opt_truthy (google_ads_account_id i) = true ->
      keys_well_formed (core i) ->
      exists token i',
        _get_token_from_external_api w i = (inr token, i')
        /\ core i' = core i
        /\ length (external_requests i') = S (length (external_requests i))
        /\ (token = PNone \/ truthy token = true /\ _access_token i' = token)).
Proof.
  unfold _get_token_from_external_api. split.
  - intros Hunset. unfold_st.
    destruct (opt_truthy (oauth_api_url i)), (opt_truthy (google_ads_account_id i));
      simpl in *; try discriminate; reflexivity.
  - intros Hset Hwf. apply andb_true_iff in Hset as [Hurl Hacc].
    unfold st_bind at 1, st_get. rewrite Hurl, Hacc. simpl.
    rewrite (external_key_absent _ _ Hwf).
    unfold external_fetch_body. unfold_st.
    repeat (case_match; simplify_eq/=);
      eexists _, _; (split; [reflexivity|]); (split; [reflexivity|]);
      (split; [simpl; rewrite List.length_app; simpl; lia|]); auto.
Qed.

(** X10: the process-wide token is served with a double margin.  A token
    returned by a fetch at time [t] is the [access_token] of the answer of
    the external API to the request of this object, an answer with status
    200; with [expires_in] the lifetime in that answer, the fetch records
    the expiry [t + expires_in - 60]; outside a request,
    [get_access_token] then serves that token exactly while the clock is
    below [t + expires_in - 120] (and the recorded expiry is not zero). *)
Theorem external_token_double_margin
        (w : request_world) (i i1 : instance) (token : pyval) :
  keys_well_formed (core i) ->
  _get_token_from_external_api w i = (inr token, i1) ->
  token <> PNone ->
  exists resp token_data expires_in seconds,
    external_post w (opt_format (oauth_api_url i) +:+ "/oauth/google-ads/token")
      (external_headers (oauth_api_token i))
      (external_payload (google_ads_account_id i))
    = inr resp
    /\ status_code resp = 200
    /\ json resp = inr token_data
    /\ dict_get token_data "access_token" PNone = inr token
    /\ dict_get token_data "expires_in" (PInt 3600) = inr expires_in
    /\ as_number expires_in = inr seconds
    /\ _access_token i1 = token
    /\ _token_expires_at i1 = Some (time_at_external_store w + seconds - 60)
    /\ forall w2 : request_world,
         flask_headers w2 = None ->
         (get_access_token w2 i1 = (inr token, i1)
          <-> time_at_external_store w + seconds - 60 <> 0
              /\ time_at_fallback w2 < time_at_external_store w + seconds - 120).
Proof.
  intros Hwf Hrun Hsome.
  unfold _get_token_from_external_api in Hrun.
  unfold st_bind at 1, st_get in Hrun.
  destruct (negb (opt_truthy (oauth_api_url i))
            || negb (opt_truthy (google_ads_account_id i))) eqn:Hcfg.
  { unfold_st. congruence. }
  rewrite (external_key_absent _ _ Hwf) in Hrun.
  unfold external_fetch_body in Hrun. unfold_st.
  repeat (case_match; simplify_eq/=); try congruence.
  match goal with H : (_ =? 200) = true |- _ => apply Z.eqb_eq in H end.
  do 4 eexists. repeat (split; [eassumption || reflexivity|]).
  intros w2 Hreq.
  rewrite (fallback_eval w2 _ (no_request_no_token w2 Hreq)). simpl.
  match goal with H : truthy token = true |- _ => rewrite H end. simpl.
  destruct (Z.eqb_spec (time_at_external_store w + z - 60) 0) as [Hz | Hz]; simpl.
  - split; [intros [= Habs]; congruence | intros [Hne _]; contradiction].
  - destruct (Z.ltb_spec (time_at_fallback w2) (time_at_external_store w + z - 60 - 60)).
    + split; [intros _; split; [exact Hz | lia] | reflexivity].
    + split; [intros [= Habs]; congruence | intros [_ Hlt]; lia].
Qed.

(** X11: [refresh_token_if_needed] forces nothing.  The cache key it
    deletes is never present, so the cache is left alone; outside a request,
    a process-wide token that is still valid is confirmed with [True] and
    the object is unchanged, and without such a token the answer is
    [False]: no request is made in either case. *)
Theorem refresh_token_if_needed_confirms
        (w : request_world) (i : instance) (expiry : Z) :
  keys_well_formed (core i) ->
  flask_headers w = None ->
  (truthy (_access_token i) = true ->
   _token_expires_at i = Some expiry ->
   expiry <> 0 ->
   time_at_fallback w < expiry - 60 ->
   refresh_token_if_needed w i = (inr true, i))
  /\ (truthy (_access_token i) = false ->
      refresh_token_if_needed w i = (inr false, i)).
Proof.
  intros Hwf Hreq.
  assert (Hrun : refresh_token_if_needed w i
                 = (match get_access_token w i with
                    | (inr token, i') =>
                        (inr (match token with PNone => false | _ => true end), i')
                    | (inl e, i') => (inl e, i')
                    end)).
  { unfold OAuthInstance.refresh_token_if_needed.
    unfold st_bind at 1, st_get. rewrite (external_key_absent _ _ Hwf).
    unfold st_bind, st_ret.
    destruct (get_access_token w i) as [[e|token] i']; reflexivity. }
  rewrite Hrun, (fallback_eval w i (no_request_no_token w Hreq)). split.
  - intros Htok -> Hne Hlt. rewrite Htok. simpl.
    destruct (Z.eqb_spec expiry 0); [contradiction|]. simpl.
    destruct (Z.ltb_spec (time_at_fallback w) (expiry - 60)); [|lia].
    destruct (_access_token i); try reflexivity. discriminate Htok.
  - intros ->. reflexivity.
Qed.

End WithHash.

Lemma stats_fold (current_time : Z) (items : list (string * cached_token))
      (stats : cache_stats) :
  let result := fold_left (stats_step current_time) items stats in
  total_cached_tokens result = total_cached_tokens stats
  /\ exists added,
       cached_refresh_tokens result = (cached_refresh_tokens stats ++ added)%list
       /\ (length added <= length items)%nat
       /\ (Forall (fun item => String.prefix "refresh_token_" (fst item) = true) items ->
           length added = length items)
       /\ expired_tokens result
          = (expired_tokens stats + length (List.filter stat_expired added))%nat
       /\ Forall (fun t => 0 <= stat_expires_in t
                           /\ (stat_expired t = true -> stat_expires_in t = 0)) added.
Proof.
  revert stats. induction items as [|[key data] items IH]; intros stats; simpl.
  - split; [reflexivity|]. exists []. rewrite List.app_nil_r. simpl.
    repeat split; auto.
  - destruct (IH (stats_step current_time stats (key, data)))
      as (Htotal & added & Hlist & Hlen & Hall & Hexp & Hok).
    unfold stats_step in Htotal, Hlist, Hexp |- *.
    destruct (String.prefix "refresh_token_" key) eqn:Hprefix; simpl in *.
    + split; [exact Htotal|].
      eexists (_ :: added). rewrite Hlist, <- List.app_assoc. simpl.
      split; [reflexivity|]. split; [lia|]. split.
      { intros Hitems. apply Forall_cons in Hitems as [_ Hitems]. now rewrite Hall. }
      split.
      { rewrite Hexp. destruct (expires_at data <=? current_time); simpl; lia. }
      constructor; [|exact Hok]. simpl. split; [lia|].
      intros Hexpired. apply Z.leb_le in Hexpired. lia.
    + split; [exact Htotal|].
      exists added. split; [exact Hlist|]. split; [lia|]. split; [|now split].
      intros Hitems. apply Forall_cons in Hitems as [Hkey _]. simpl in Hkey. congruence.
Qed.

(** X12: in the statistics of the cache, the number of expired tokens is
    the number of listed entries flagged as expired and never exceeds the
    total; every listed entry has a remaining time that is not negative,
    and zero when it is flagged; and when every key of the cache was made
    for a refresh token, every entry of the cache is listed. *)
Theorem cache_stats_are_consistent (current_time : Z) (c : client) :
  let stats := get_cache_stats current_time c in
  total_cached_tokens stats = size (token_cache c)
  /\ expired_tokens stats
     = length (List.filter stat_expired (cached_refresh_tokens stats))
  /\ (expired_tokens stats <= length (cached_refresh_tokens stats)
      <= total_cached_tokens stats)%nat
  /\ Forall (fun t => 0 <= stat_expires_in t
                      /\ (stat_expired t = true -> stat_expires_in t = 0))
            (cached_refresh_tokens stats)
  /\ (keys_well_formed c ->
      length (cached_refresh_tokens stats) = total_cached_tokens stats).
Proof.
  unfold get_cache_stats.
  destruct (stats_fold current_time (map_to_list (token_cache c))
              {| total_cached_tokens := size (token_cache c);
                 cached_refresh_tokens := [];
                 expired_tokens := 0 |})
    as (Htotal & added & Hlist & Hlen & Hall & Hexp & Hok).
  simpl in *. rewrite length_map_to_list in Hlen, Hall.
  rewrite Htotal, Hlist, Hexp.
  split; [reflexivity|]. split; [reflexivity|]. split.
  { split; [apply List.filter_length_le | exact Hlen]. }
  split; [exact Hok|].
  intros Hwf. apply Hall. apply List.Forall_forall. intros [key data] Hin.
  apply list_elem_of_In, elem_of_map_to_list in Hin. simpl. eapply Hwf, Hin.
Qed.

(** X13: [get_customer_id] never returns an empty string; a non-empty
    [X-Google-Ads-Customer-ID] header of the request takes precedence over
    the environment variable [GOOGLE_ADS_CUSTOMER_ID], which is used when
    the header is missing or empty. *)
Theorem customer_id_precedence (w : request_world) :
  get_customer_id w <> Some EmptyString
  /\ (forall headers customer_id,
        flask_headers w = Some headers ->
        headers "X-Google-Ads-Customer-ID" = Some customer_id ->
        customer_id <> EmptyString ->
        get_customer_id w = Some customer_id)
  /\ (forall customer_id,
        (flask_headers w = None
         \/ exists headers,
              flask_headers w = Some headers
              /\ opt_truthy (headers "X-Google-Ads-Customer-ID") = false) ->
        environ (base w) !! "GOOGLE_ADS_CUSTOMER_ID" = Some customer_id ->
        customer_id <> EmptyString ->
        get_customer_id w = Some customer_id).
Proof.
  unfold get_customer_id. split; [|split].
  - destruct (flask_headers w) as [headers|].
    + destruct (headers "X-Google-Ads-Customer-ID") as [h|] eqn:Hh; simpl.
      * destruct (String.eqb_spec h EmptyString); simpl; [|congruence].
        destruct (environ (base w) !! "GOOGLE_ADS_CUSTOMER_ID") as [v|]; simpl;
          [|discriminate].
        destruct (String.eqb_spec v EmptyString); simpl; congruence.
      * destruct (environ (base w) !! "GOOGLE_ADS_CUSTOMER_ID") as [v|]; simpl;
          [|discriminate].
        destruct (String.eqb_spec v EmptyString); simpl; congruence.
    + simpl. destruct (environ (base w) !! "GOOGLE_ADS_CUSTOMER_ID") as [v|]; simpl;
        [|discriminate].
      destruct (String.eqb_spec v EmptyString); simpl; congruence.
  - intros headers customer_id -> -> Hne. simpl.
    destruct (String.eqb_spec customer_id EmptyString); [contradiction | reflexivity].
  - intros customer_id Hheader -> Hne.
    assert (Hfalse : opt_truthy match flask_headers w with
                                | Some headers => headers "X-Google-Ads-Customer-ID"
                                | None => None
                                end = false).
    { destruct Hheader as [-> | (headers & -> & ->)]; reflexivity. }
    rewrite Hfalse. simpl.
    destruct (String.eqb_spec customer_id EmptyString); [contradiction | reflexivity].
Qed.

Lemma fresh_client_keys : keys_well_formed fresh_client.
Proof. intros key entry Hlook. simpl in Hlook. now rewrite lookup_empty in Hlook. Defined.

Lemma demo_cached_keys : keys_well_formed demo_cached.
Proof. apply generate_keeps_keys, fresh_client_keys. Defined.

Lemma demo_instance_keys : keys_well_formed (core demo_instance).
Proof. apply fresh_client_keys. Defined.

Lemma demo_fetched_keys : keys_well_formed (core demo_fetched).
Proof. apply fresh_client_keys. Defined.

Example demo_cache_stats :
  get_cache_stats 2000 demo_cached
  = {| total_cached_tokens := 1;
       cached_refresh_tokens :=
         [ {| stat_hash := "1//0demo-r"; stat_expires_in := 2540; stat_expired := false |} ];
       expired_tokens := 0 |}.
Proof. reflexivity. Qed.

Example demo_external_fetch :
  fst (_get_token_from_external_api (demo_request_world None 1000) demo_instance)
  = inr (PStr "ya29.external")
  /\ _token_expires_at demo_fetched = Some 4540.
Proof. split; reflexivity. Qed.

Lemma colliding_tokens_share_entry_witness :
  exists entry,
    token_cache demo_cached !! _get_cache_key_for_refresh_token demo_hash "1//0other-person"
    = Some entry
    /\ access_token entry = PStr "ya29.fresh"
    /\ forall w2 : world,
         expires_at entry > time_at_check w2 ->
         _generate_access_token_from_refresh demo_hash w2 "1//0other-person" demo_cached
         = (inr (PStr "ya29.fresh"), demo_cached).
Proof.
  apply (colliding_tokens_share_entry demo_hash (demo_world 1000)
           "1//0demo-refresh" "1//0other-person" fresh_client).
  - reflexivity.
  - vm_compute. exact I.
  - reflexivity.
  - discriminate.
Defined.

Lemma distinct_tokens_are_isolated_witness :
  token_cache (snd (_generate_access_token_from_refresh demo_hash (demo_world 1000)
                      "1//0demo-refresh" stale_client))
    !! _get_cache_key_for_refresh_token demo_hash "1//0short"
  = token_cache stale_client !! _get_cache_key_for_refresh_token demo_hash "1//0short".
Proof.
  apply (distinct_tokens_are_isolated demo_hash (demo_world 1000)
           "1//0demo-refresh" "1//0short" stale_client).
  vm_compute. discriminate.
Defined.

Lemma cached_entry_lifetime_witness :
  exists resp token_data expires_in seconds,
    provider_answers (demo_world 1000) "1//0demo-refresh" resp
    /\ json resp = inr token_data
    /\ dict_get token_data "expires_in" (PInt 3600) = inr expires_in
    /\ as_number expires_in = inr seconds
    /\ token_cache demo_cached !! _get_cache_key_for_refresh_token demo_hash "1//0demo-refresh"
       = Some {| access_token := PStr "ya29.fresh";
                 expires_at := time_at_store (demo_world 1000) + seconds - 60;
                 refresh_token_hash := take 10 "1//0demo-refresh" |}
    /\ forall w2 : world,
         _generate_access_token_from_refresh demo_hash w2 "1//0demo-refresh" demo_cached
         = (inr (PStr "ya29.fresh"), demo_cached)
         <-> time_at_check w2 < time_at_store (demo_world 1000) + seconds - 60.
Proof.
  apply (cached_entry_lifetime demo_hash (demo_world 1000) "1//0demo-refresh"
           fresh_client demo_cached (PStr "ya29.fresh")).
  - vm_compute. exact I.
  - reflexivity.
  - discriminate.
Defined.

Lemma cache_keys_stay_well_formed_witness :
  keys_well_formed demo_cached
  /\ keys_well_formed
       (snd (clear_cache_for_refresh_token demo_hash "1//0demo-refresh" fresh_client)).
Proof.
  apply (proj2 (cache_keys_stay_well_formed demo_hash (demo_world 1000)
                  "1//0demo-refresh" fresh_client ∅)).
  exact fresh_client_keys.
Defined.

Lemma header_access_token_wins_witness :
  get_access_token demo_hash
    (demo_request_world (Some [ ("X-OAuth-Access-Token", "ya29.header");
                                ("X-OAuth-Refresh-Token", "1//0demo-refresh") ]) 1000)
    demo_instance
  = (inr (PStr "ya29.header"), demo_instance).
Proof.
  apply (header_access_token_wins demo_hash _ demo_instance
           (demo_header [ ("X-OAuth-Access-Token", "ya29.header");
                          ("X-OAuth-Refresh-Token", "1//0demo-refresh") ])
           "ya29.header").
  - reflexivity.
  - reflexivity.
  - discriminate.
Defined.

Lemma fallback_token_window_witness :
  get_access_token demo_hash (demo_request_world None 2000) demo_fetched
  = (inr (if truthy (_access_token demo_fetched)
             && expiry_truthy (_token_expires_at demo_fetched)
             && (time_at_fallback (demo_request_world None 2000)
                 <? from_option id 0 (_token_expires_at demo_fetched) - 60)
          then _access_token demo_fetched else PNone), demo_fetched)
  /\ forall os_environ,
       get_access_token demo_hash (demo_request_world None 2000)
         (DynamicOAuthClient os_environ)
       = (inr PNone, DynamicOAuthClient os_environ).
Proof.
  apply (fallback_token_window demo_hash (demo_request_world None 2000) demo_fetched).
  left. reflexivity.
Defined.

Lemma external_fetch_bypasses_cache_witness :
  _get_token_from_external_api (demo_request_world None 1000) (DynamicOAuthClient ∅)
  = (inr PNone, DynamicOAuthClient ∅)
  /\ exists token i',
       _get_token_from_external_api (demo_request_world None 1000) demo_instance
       = (inr token, i')
       /\ core i' = core demo_instance
       /\ length (external_requests i') = S (length (external_requests demo_instance))
       /\ (token = PNone \/ truthy token = true /\ _access_token i' = token).
Proof.
  split.
  - apply (proj1 (external_fetch_bypasses_cache (demo_request_world None 1000)
                    (DynamicOAuthClient ∅))).
    reflexivity.
  - apply (proj2 (external_fetch_bypasses_cache (demo_request_world None 1000)
                    demo_instance)).
    + reflexivity.
    + exact demo_instance_keys.
Defined.

Lemma external_token_double_margin_witness :
  exists resp token_data expires_in seconds,
    external_post (demo_request_world None 1000)
      (opt_format (oauth_api_url demo_instance) +:+ "/oauth/google-ads/token")
      (external_headers (oauth_api_token demo_instance))
      (external_payload (google_ads_account_id demo_instance))
    = inr resp
    /\ status_code resp = 200
    /\ json resp = inr token_data
    /\ dict_get token_data "access_token" PNone = inr (PStr "ya29.external")
    /\ dict_get token_data "expires_in" (PInt 3600) = inr expires_in
    /\ as_number expires_in = inr seconds
    /\ _access_token demo_fetched = PStr "ya29.external"
    /\ _token_expires_at demo_fetched
       = Some (time_at_external_store (demo_request_world None 1000) + seconds - 60)
    /\ forall w2 : request_world,
         flask_headers w2 = None ->
         (get_access_token demo_hash w2 demo_fetched
          = (inr (PStr "ya29.external"), demo_fetched)
          <-> time_at_external_store (demo_request_world None 1000) + seconds - 60 <> 0
              /\ time_at_fallback w2
                 < time_at_external_store (demo_request_world None 1000) + seconds - 120).
Proof.
  apply (external_token_double_margin demo_hash (demo_request_world None 1000)
           demo_instance demo_fetched (PStr "ya29.external")).
  - exact demo_instance_keys.
  - reflexivity.
  - discriminate.
Defined.

Lemma refresh_token_if_needed_confirms_witness :
  refresh_token_if_needed demo_hash (demo_request_world None 2000) demo_fetched
  = (inr true, demo_fetched)
  /\ refresh_token_if_needed demo_hash (demo_request_world None 2000) demo_instance
     = (inr false, demo_instance).
Proof.
  split.
  - apply (proj1 (refresh_token_if_needed_confirms demo_hash
                    (demo_request_world None 2000) demo_fetched 4540
                    demo_fetched_keys eq_refl));
      [reflexivity | reflexivity | discriminate | simpl; lia].
  - apply (proj2 (refresh_token_if_needed_confirms demo_hash
                    (demo_request_world None 2000) demo_instance 0
                    demo_instance_keys eq_refl)).
    reflexivity.
Defined.

Lemma cache_stats_are_consistent_witness :
  length (cached_refresh_tokens (get_cache_stats 2000 demo_cached))
  = total_cached_tokens (get_cache_stats 2000 demo_cached).
Proof.
  apply (proj2 (proj2 (proj2 (proj2 (cache_stats_are_consistent 2000 demo_cached))))).
  exact demo_cached_keys.
Defined.

Lemma customer_id_precedence_witness :
  get_customer_id (demo_env_world (Some [ ("X-Google-Ads-Customer-ID", "7778889999") ]))
  = Some "7778889999"
  /\ get_customer_id (demo_env_world None) = Some "5550001111".
Proof.
  split.
  - apply (proj1 (proj2 (customer_id_precedence
             (demo_env_world (Some [ ("X-Google-Ads-Customer-ID", "7778889999") ]))))
             (demo_header [ ("X-Google-Ads-Customer-ID", "7778889999") ]) "7778889999");
      [reflexivity | reflexivity | discriminate].
  - apply (proj2 (proj2 (customer_id_precedence (demo_env_world None))) "5550001111");
      [left; reflexivity | reflexivity | discriminate].
Defined.

End OAuthInstanceFacts.

(** * Field paths, rows and the tools *)

Module ToolsFacts.
Import PyStr PyStrFacts Py OAuthClient OAuthClientFacts Eff OAuthInstance
       OAuthInstanceFacts Gaql GaqlFacts Api ApiFacts Tools.

Lemma replace_absent (old new s : string) :
  str_in old s = false -> replace old new s = s.
Proof.
  unfold replace. induction s as [|c s IH]; [reflexivity|].
  rewrite str_in_unfold. intros Habsent.
  apply orb_false_iff in Habsent as [Hprefix Hrest].
  cbn [replace_from]. rewrite Hprefix. f_equal. now apply IH.
Qed.

Lemma prefix_app_long (p x y : string) :
  (String.length p <= String.length x)%nat ->
  String.prefix p (x +:+ y) = String.prefix p x.
Proof.
  revert x. induction p as [|a p IH]; intros x Hlen; [now destruct x, y|].
  destruct x as [|b x]; [simpl in Hlen; lia|].
  rewrite str_app_cons. simpl. destruct (ascii_dec a b); [|reflexivity].
  apply IH. simpl in Hlen. lia.
Qed.

Lemma str_length_app (a b : string) :
  String.length (a +:+ b) = (String.length a + String.length b)%nat.
Proof.
  induction a as [|c a IH]; [reflexivity|]. rewrite str_app_cons. simpl. now rewrite IH.
Qed.

Lemma replace_from_cons (old new : string) (c : ascii) (rest : string) :
  replace_from 0 old new (String c rest)
  = if String.prefix old (String c rest)
    then new +:+ replace_from (Nat.pred (String.length old)) old new rest
    else String c (replace_from 0 old new rest).
Proof. reflexivity. Qed.

Lemma replace_first_type (a b : string) :
  str_in ".type" (a +:+ ".typ") = false ->
  replace ".type" ".type_" (a +:+ ".type" +:+ b)
  = a +:+ ".type_" +:+ replace ".type" ".type_" b.
Proof.
  unfold replace. induction a as [|c a IH]; intros Habsent.
  - destruct b; reflexivity.
  - rewrite str_app_cons in Habsent. rewrite str_in_unfold in Habsent.
    apply orb_false_iff in Habsent as [Hprefix Hrest].
    rewrite !(str_app_cons c a), replace_from_cons.
    assert (Hsplit : a +:+ ".type" +:+ b = (a +:+ ".typ") +:+ "e" +:+ b).
    { rewrite str_app_assoc. reflexivity. }
    assert (Hhere : String.prefix ".type" (String c (a +:+ ".type" +:+ b)) = false).
    { rewrite Hsplit, <- str_app_cons, prefix_app_long; [exact Hprefix|].
      simpl. rewrite str_length_app. simpl. lia. }
    rewrite Hhere. f_equal. now apply IH.
Qed.

Lemma split_char_nonempty (sep : ascii) (s : string) : split_char sep s <> [].
Proof.
  destruct s as [|c s]; simpl; [discriminate|].
  destruct (Ascii.eqb c sep); [discriminate|].
  destruct (split_char sep s); discriminate.
Qed.

Lemma split_char_join (sep : ascii) (s : string) :
  join (String sep EmptyString) (split_char sep s) = s.
Proof.
  induction s as [|c s IH]; [reflexivity|]. simpl.
  destruct (Ascii.eqb_spec c sep) as [-> | Hne].
  - destruct (split_char sep s) as [|piece pieces] eqn:Hsplit;
      [now apply split_char_nonempty in Hsplit|].
    change (join (String sep EmptyString) (EmptyString :: piece :: pieces))
      with (String sep EmptyString +:+ join (String sep EmptyString) (piece :: pieces)).
    now rewrite IH.
  - destruct (split_char sep s) as [|piece pieces] eqn:Hsplit;
      [now apply split_char_nonempty in Hsplit|].
    rewrite <- IH. destruct pieces; reflexivity.
Qed.

Lemma str_in_char (sep c : ascii) (s : string) :
  str_in (String sep EmptyString) (String c s)
  = Ascii.eqb c sep || str_in (String sep EmptyString) s.
Proof.
  rewrite str_in_unfold. f_equal. simpl.
  destruct (ascii_dec sep c) as [-> | Hne].
  - rewrite Ascii.eqb_refl. now destruct s.
  - symmetry. apply Ascii.eqb_neq. congruence.
Qed.

Lemma split_char_pieces (sep : ascii) (s : string) :
  Forall (fun piece => str_in (String sep EmptyString) piece = false) (split_char sep s).
Proof.
  induction s as [|c s IH]; simpl; [now repeat constructor|].
  destruct (Ascii.eqb c sep) eqn:Hc; [constructor; [reflexivity | exact IH]|].
  destruct (split_char sep s) as [|piece pieces]; [now repeat constructor; rewrite str_in_char, Hc|].
  apply Forall_cons in IH as [Hpiece Hpieces].
  constructor; [|exact Hpieces]. now rewrite str_in_char, Hc.
Qed.

Lemma split_char_none (sep : ascii) (s : string) :
  str_in (String sep EmptyString) s = false -> split_char sep s = [s].
Proof.
  induction s as [|c s IH]; [reflexivity|].
  rewrite str_in_char. intros Habsent. apply orb_false_iff in Habsent as [Hc Hs].
  simpl. rewrite Hc, (IH Hs). reflexivity.
Qed.

Lemma split_char_app (sep : ascii) (a b : string) :
  split_char sep (a +:+ String sep b) = (split_char sep a ++ split_char sep b)%list.
Proof.
  induction a as [|c a IH].
  - change (EmptyString +:+ String sep b) with (String sep b). simpl.
    now rewrite Ascii.eqb_refl.
  - rewrite str_app_cons. simpl. rewrite IH.
    destruct (Ascii.eqb c sep); [reflexivity|].
    destruct (split_char sep a) as [|piece pieces] eqn:Hsplit;
      [now apply split_char_nonempty in Hsplit | reflexivity].
Qed.

Lemma last_app_nonempty {A} (xs ys : list A) (d : A) :
  ys <> [] -> List.last (xs ++ ys) d = List.last ys d.
Proof.
  intros Hys. induction xs as [|x xs IH]; [reflexivity|].
  simpl. destruct (xs ++ ys)%list eqn:Happ; [|exact IH].
  apply List.app_eq_nil in Happ as [_ ->]. contradiction.
Qed.

(** X14: the rewriting of a field path for attribute access leaves a path
    without [.type] as it is, and otherwise appends an underscore to the
    first [.type] and goes on in the same way after it -- whether or not
    [.type] ends a segment of the path there. *)
Theorem python_field_path_rewrites_type :
  (forall field_path,
      str_in ".type" field_path = false ->
      python_field_path field_path = field_path)
  /\ (forall before after,
        str_in ".type" (before +:+ ".typ") = false ->
        python_field_path (before +:+ ".type" +:+ after)
        = before +:+ ".type_" +:+ python_field_path after).
Proof.
  split.
  - intros field_path Habsent. now apply replace_absent.
  - intros before after Hfirst. now apply replace_first_type.
Qed.

Lemma python_field_path_rewrites_type_witness :
  python_field_path "campaign.advertising_channel_type"
  = "campaign.advertising_channel_type"
  /\ python_field_path ("ad_group" +:+ ".type" +:+ "s.type")
     = "ad_group" +:+ ".type_" +:+ python_field_path "s.type".
Proof.
  split.
  - apply (proj1 python_field_path_rewrites_type). reflexivity.
  - apply (proj2 python_field_path_rewrites_type). reflexivity.
Defined.

(** X15: splitting a resource name at the slashes loses nothing: joining
    the pieces with slashes gives the name back.  The account id taken from
    a resource name contains no slash, and for a name [prefix/id] whose
    [id] has no slash it is [id]. *)
Theorem account_id_is_last_segment :
  (forall account,
      join "/" (split_char slash account) = account
      /\ str_in "/" (account_id account) = false)
  /\ (forall prefix id,
        str_in "/" id = false ->
        account_id (prefix +:+ "/" +:+ id) = id).
Proof.
  split.
  - intros account. split; [apply split_char_join|].
    unfold account_id.
    pose proof (split_char_pieces slash account) as Hpieces.
    pose proof (split_char_nonempty slash account) as Hne.
    induction (split_char slash account) as [|piece pieces IH]; [contradiction|].
    apply Forall_cons in Hpieces as [Hpiece Hpieces].
    destruct pieces as [|next pieces]; [exact Hpiece|].
    apply IH; [exact Hpieces | discriminate].
  - intros prefix id Hid. unfold account_id.
    change ("/" +:+ id) with (String slash id).
    rewrite split_char_app, last_app_nonempty by apply split_char_nonempty.
    now rewrite (split_char_none slash id Hid).
Qed.

Lemma account_id_is_last_segment_witness :
  (join "/" (split_char slash "customers/1234567890") = "customers/1234567890"
   /\ str_in "/" (account_id "customers/1234567890") = false)
  /\ account_id ("customers" +:+ "/" +:+ "1234567890") = "1234567890".
Proof.
  split.
  - apply (proj1 account_id_is_last_segment).
  - apply (proj2 account_id_is_last_segment). reflexivity.
Defined.

Section WithLibraries.

(** The client libraries, as in the definitions. *)
Context (Message : Type) (to_dict : Message -> exc (list (string * pyval))).
Context (debug_line : Api.value Message -> exn -> exc string).
Context (hash : string -> Z).
Context (Row : Type) (get_nested_attr : Row -> string -> exc (value Message)).
Context (Cred Client : Type).

Local Abbreviation value := (Api.value Message).
Local Abbreviation batch := (Api.batch Row).
Local Abbreviation stream := (Api.stream Row).
Local Abbreviation api_world := (Api.api_world Row).
Local Abbreviation format_value := (Api.format_value Message to_dict debug_line).
Local Abbreviation process_field := (Api.process_field Message to_dict debug_line Row get_nested_attr).
Local Abbreviation process_fields := (Api.process_fields Message to_dict debug_line Row get_nested_attr).
Local Abbreviation process_rows := (Api.process_rows Message to_dict debug_line Row get_nested_attr).
Local Abbreviation process_batches := (Api.process_batches Message to_dict debug_line Row get_nested_attr).
Local Abbreviation drain := (Api.drain Message to_dict debug_line Row get_nested_attr).
Local Abbreviation flatten := (Api.flatten Message to_dict debug_line Row get_nested_attr).
Local Abbreviation execute_gaql := (Api.execute_gaql Message to_dict debug_line hash Row get_nested_attr).
Local Abbreviation reaches_search := (Api.reaches_search hash Row).
Local Abbreviation processes := (Api.processes Message to_dict debug_line Row get_nested_attr).
Local Abbreviation _get_cache_key_for_refresh_token :=
  (OAuthClient._get_cache_key_for_refresh_token hash).
Local Abbreviation _generate_access_token_from_refresh :=
  (OAuthClient._generate_access_token_from_refresh hash).
Local Abbreviation no_unexpired_entry := (OAuthClient.no_unexpired_entry hash).
Local Abbreviation get_access_token := (OAuthInstance.get_access_token hash).
Local Abbreviation list_accessible_accounts := (Tools.list_accessible_accounts hash Client).
Local Abbreviation client_from_token := (Tools.client_from_token Cred Client).
Local Abbreviation get_ads_client := (Tools.get_ads_client hash Cred Client).
Local Abbreviation no_token_available := (Tools.no_token_available hash Cred Client).
Local Abbreviation masked_rows := (Tools.masked_rows Row).
Local Abbreviation mapping_of := (Tools.mapping_of Message to_dict debug_line Row get_nested_attr).

Lemma process_fields_contents (row : Row) (paths : list string)
      (row_data0 row_data : gmap string value) :
  process_fields row paths row_data0 = inr row_data ->
  (forall p, In p paths ->
     exists raw_value formatted_value,
       get_nested_attr row (python_field_path p) = inr raw_value
       /\ format_value raw_value = inr formatted_value
       /\ row_data !! p = Some formatted_value)
  /\ (forall key, ~ In key paths -> row_data !! key = row_data0 !! key).
Proof.
  revert row_data0. induction paths as [|p0 paths IH]; intros row_data0 Hrun; simpl in Hrun.
  - injection Hrun as <-. split; [intros p [] | reflexivity].
  - destruct (get_nested_attr row (python_field_path p0)) as [e|raw] eqn:Hraw.
    { rewrite (process_field_failed _ _ _ _ _ _ _ _ _ Hraw) in Hrun. discriminate. }
    destruct (Api.format_value Message to_dict debug_line raw) as [e|f] eqn:Hf.
    { rewrite (process_field_unformatted _ _ _ _ _ _ _ _ _ _ Hraw Hf) in Hrun.
      discriminate. }
    rewrite (process_field_resolved _ _ _ _ _ _ _ _ _ _ Hraw Hf) in Hrun.
    simpl in Hrun.
    destruct (IH _ Hrun) as [Hin Hout]. split.
    + intros p Hp.
      destruct (in_dec String.string_dec p paths) as [Hrest | Hrest]; [now apply Hin|].
      destruct Hp as [<- | Hp]; [|contradiction].
      exists raw, f. repeat split; try assumption.
      rewrite (Hout _ Hrest). apply lookup_insert_eq.
    + intros key Hkey. rewrite Hout by (intros Hk; apply Hkey; now right).
      apply lookup_insert_ne. intros ->. apply Hkey. now left.
Qed.

(** X16: the mapping built for a row has exactly the paths of the field
    mask as keys, under their original spelling, and holds under each the
    formatted value of what the rewritten path resolves to on the row. *)
Theorem row_mapping_contents
        (row : Row) (paths : list string) (row_data : gmap string value) :
  process_fields row paths ∅ = inr row_data ->
  (forall p, In p paths ->
     exists raw_value formatted_value,
       get_nested_attr row (python_field_path p) = inr raw_value
       /\ format_value raw_value = inr formatted_value
       /\ row_data !! p = Some formatted_value)
  /\ (forall key, ~ In key paths -> row_data !! key = None).
Proof.
  intros Hrun. destruct (process_fields_contents row paths ∅ row_data Hrun) as [Hin Hout].
  split; [exact Hin|]. intros key Hkey. rewrite (Hout key Hkey). apply lookup_empty.
Qed.

Lemma process_rows_result (paths : list string) (rows : list Row)
      (output output' : list (gmap string value)) :
  process_rows paths rows output = inr output' ->
  exists new,
    output' = (output ++ new)%list
    /\ Forall2 mapping_of (map (pair paths) rows) new.
Proof.
  revert output. induction rows as [|row rows IH]; intros output Hrun; simpl in Hrun.
  - injection Hrun as <-. exists []. rewrite List.app_nil_r. split; [reflexivity | constructor].
  - destruct (Api.process_fields Message to_dict debug_line Row get_nested_attr row paths ∅)
      as [e|d] eqn:Hrow; simpl in Hrun; [discriminate|].
    destruct (IH _ Hrun) as (new & -> & Hnew).
    exists (d :: new). rewrite <- List.app_assoc. split; [reflexivity|].
    constructor; [exact Hrow | exact Hnew].
Qed.

Lemma process_batches_result (batches : list batch)
      (output output' : list (gmap string value)) :
  process_batches batches output = inr output' ->
  exists new,
    output' = (output ++ new)%list
    /\ Forall2 mapping_of (masked_rows batches) new.
Proof.
  revert output. induction batches as [|b batches IH]; intros output Hrun; simpl in Hrun.
  - injection Hrun as <-. exists []. rewrite List.app_nil_r. split; [reflexivity | constructor].
  - destruct (Api.process_rows Message to_dict debug_line Row get_nested_attr
                (field_mask_paths b) (results b) output) as [e|out1] eqn:Hb;
      simpl in Hrun; [discriminate|].
    destruct (process_rows_result _ _ _ _ Hb) as (new1 & -> & Hnew1).
    destruct (IH _ Hrun) as (new2 & -> & Hnew2).
    exists (new1 ++ new2)%list. rewrite <- List.app_assoc. split; [reflexivity|].
    unfold Tools.masked_rows. simpl. now apply Forall2_app.
Qed.

(** X17: when [execute_gaql] returns, the stream has ended without an
    exception and the list returned holds one mapping per row of the
    response, in the order of the stream, each built from its row and the
    field mask of its batch; and it does return when every field path
    resolves on every row to a value that is formatted without an
    exception, and the stream ends without an exception. *)
Theorem rows_are_returned_in_order
        (w : api_world) (query customer_id : string) (login : option string)
        (c c' : client) (s : stream) :
  reaches_search w query customer_id login c c' s ->
  (forall output,
      execute_gaql w query customer_id login c = (inr output, c') ->
      failure s = None
      /\ Forall2 mapping_of (masked_rows (delivered s)) output)
  /\ ((forall b row p,
         In b (delivered s) -> In row (results b) -> In p (field_mask_paths b) ->
         processes row p) ->
      failure s = None ->
      exists output, execute_gaql w query customer_id login c = (inr output, c')).
Proof.
  intros Hreach.
  rewrite (execute_gaql_reaches _ _ _ _ _ _ _ _ _ _ _ _ _ Hreach).
  unfold Api.flatten, Api.drain. split.
  - intros output Hrun.
    destruct (Api.process_batches Message to_dict debug_line Row get_nested_attr (delivered s) [])
      as [e|out] eqn:Hbatches; simpl in Hrun.
    { destruct (is_GoogleAdsException e); congruence. }
    destruct (failure s) as [e|]; simpl in Hrun.
    { destruct (is_GoogleAdsException e); congruence. }
    injection Hrun as ->. split; [reflexivity|].
    destruct (process_batches_result _ _ _ Hbatches) as (new & -> & Hnew). exact Hnew.
  - intros Hall Hend.
    destruct (process_batches_ok Message to_dict debug_line Row get_nested_attr
                (delivered s) Hall []) as [out Hout].
    rewrite Hout, Hend. simpl. eauto.
Qed.

(** X18: only a [GoogleAdsException] is turned into a [RuntimeError]; when
    the stream ends with any other exception after rows whose fields
    were all resolved and formatted, that exception leaves the call as it
    is, and the rows already processed are not returned. *)
Theorem other_stream_failure_propagates
        (w : api_world) (query customer_id : string) (login : option string)
        (c c' : client) (s : stream) (e : exn) :
  reaches_search w query customer_id login c c' s ->
  (forall b row p,
      In b (delivered s) -> In row (results b) -> In p (field_mask_paths b) ->
      processes row p) ->
  failure s = Some e ->
  is_GoogleAdsException e = false ->
  execute_gaql w query customer_id login c = (inl e, c').
Proof.
  intros Hreach Hall Hend Hother.
  rewrite (execute_gaql_reaches _ _ _ _ _ _ _ _ _ _ _ _ _ Hreach).
  unfold Api.flatten, Api.drain.
  destruct (process_batches_ok Message to_dict debug_line Row get_nested_attr
              (delivered s) Hall []) as [out Hout].
  rewrite Hout, Hend. simpl. now rewrite Hother.
Qed.

(** X19: with an unexpired cache entry for the refresh token of the
    request, [execute_gaql] neither reads the credentials for an exchange
    nor contacts the OAuth provider: the client object is left exactly as
    it was, the cached token is what [get_ads_client] receives, and a
    non-empty [login_customer_id] argument replaces the one of the client
    for the search. *)
Theorem cached_token_serves_query
        (w : api_world) (query customer_id : string) (login : option string)
        (c : client) (refresh_token : string) (entry : cached_token) :
  get_refresh_token_from_headers (get_http_headers w) = Some refresh_token ->
  refresh_token <> EmptyString ->
  token_cache c !! _get_cache_key_for_refresh_token refresh_token = Some entry ->
  expires_at entry > time_at_check (oauth w) ->
  truthy (access_token entry) = true ->
  execute_gaql w query customer_id login c
  = (match Api.get_ads_client w (access_token entry) with
     | inl e => inl e
     | inr ads_client =>
         flatten w (search_stream ads_client
                      (if str_truthy login then login
                       else login_customer_id ads_client)
                      (preprocess_gaql query) customer_id)
     end, c).
Proof.
  intros Hhdr Hne Hlook Hlive Htruthy.
  unfold Api.execute_gaql. rewrite Hhdr.
  destruct (String.eqb_spec refresh_token EmptyString); [contradiction|].
  unfold bind, lift.
  rewrite (generate_hit hash _ _ _ _ Hlook Hlive), Htruthy. simpl.
  destruct (Api.get_ads_client w (access_token entry)); reflexivity.
Qed.

Lemma failed_exchange_is_falsy (w : world) (refresh_token : string) (c : client) :
  no_unexpired_entry c refresh_token (time_at_check w) ->
  exchange_failure w refresh_token ->
  exists c',
    _generate_access_token_from_refresh w refresh_token c = (inr PNone, c')
    /\ token_cache c' = token_cache c.
Proof.
  intros Hmiss Hfail. rewrite (generate_miss hash _ _ _ Hmiss).
  now apply exchange_failure_none.
Qed.

(** X20: [execute_gaql] authenticates before anything else.  Without a
    usable refresh-token header it raises at once and the client object is
    untouched; when the exchange fails it raises the fixed
    "Failed to generate access token" error with the cache unchanged; in
    both cases [get_ads_client] and the Google Ads service are never
    reached. *)
Theorem execute_gaql_authenticates_first
        (w : api_world) (query customer_id : string) (login : option string)
        (c : client) :
  (get_refresh_token_from_headers (get_http_headers w) = None
   \/ get_refresh_token_from_headers (get_http_headers w) = Some EmptyString ->
   execute_gaql w query customer_id login c
   = (inl (PlainException "Missing X-OAuth-Refresh-Token header for authentication"), c))
  /\ (forall refresh_token,
        get_refresh_token_from_headers (get_http_headers w) = Some refresh_token ->
        refresh_token <> EmptyString ->
        no_unexpired_entry c refresh_token (time_at_check (oauth w)) ->
        exchange_failure (oauth w) refresh_token ->
        exists c',
          execute_gaql w query customer_id login c
          = (inl (PlainException "Failed to generate access token from refresh token"), c')
          /\ token_cache c' = token_cache c).
Proof.
  unfold Api.execute_gaql. split.
  - intros [-> | ->]; reflexivity.
  - intros refresh_token -> Hne Hmiss Hfail.
    destruct (String.eqb_spec refresh_token EmptyString); [contradiction|].
    destruct (failed_exchange_is_falsy _ _ _ Hmiss Hfail) as (c' & Hrun & Hcache).
    exists c'. unfold bind. rewrite Hrun. simpl. split; [reflexivity | exact Hcache].
Qed.

Lemma account_ids_round_trip (ids : list string) :
  Forall (fun id => str_in "/" id = false) ids ->
  map account_id (map (fun id => "customers/" +:+ id) ids) = ids.
Proof.
  induction 1 as [|id ids Hid _ IH]; [reflexivity|]. simpl. rewrite IH. f_equal.
  change ("customers/" +:+ id) with ("customers" +:+ "/" +:+ id).
  change ("/" +:+ id) with (String slash id). unfold account_id.
  rewrite split_char_app, last_app_nonempty by apply split_char_nonempty.
  now rewrite (split_char_none slash id Hid).
Qed.

(** X21: [list_accessible_accounts] authenticates like [execute_gaql]:
    without a usable header, or when the exchange fails, it raises before
    any Google Ads client is built.  When the service answers with the
    resource names [customers/<id>], the ids come back in the same order
    and number. *)
Theorem list_accessible_accounts_returns_ids
        (w : accounts_world Client) (c : client) :
  (get_refresh_token_from_headers (acc_http_headers w) = None
   \/ get_refresh_token_from_headers (acc_http_headers w) = Some EmptyString ->
   list_accessible_accounts w c
   = (inl (PlainException "Missing X-OAuth-Refresh-Token header for authentication"), c))
  /\ (forall refresh_token,
        get_refresh_token_from_headers (acc_http_headers w) = Some refresh_token ->
        refresh_token <> EmptyString ->
        no_unexpired_entry c refresh_token (time_at_check (acc_oauth w)) ->
        exchange_failure (acc_oauth w) refresh_token ->
        exists c',
          list_accessible_accounts w c
          = (inl (PlainException "Failed to generate access token from refresh token"), c')
          /\ token_cache c' = token_cache c)
  /\ (forall refresh_token access_token c' ads_client ids,
        get_refresh_token_from_headers (acc_http_headers w) = Some refresh_token ->
        refresh_token <> EmptyString ->
        _generate_access_token_from_refresh (acc_oauth w) refresh_token c
        = (inr access_token, c') ->
        truthy access_token = true ->
        acc_get_ads_client w access_token = inr ads_client ->
        Forall (fun id => str_in "/" id = false) ids ->
        acc_resource_names w ads_client
        = inr (map (fun id => "customers/" +:+ id) ids) ->
        list_accessible_accounts w c = (inr ids, c')).
Proof.
  unfold Tools.list_accessible_accounts. split; [|split].
  - intros [-> | ->]; reflexivity.
  - intros refresh_token -> Hne Hmiss Hfail.
    destruct (String.eqb_spec refresh_token EmptyString); [contradiction|].
    destruct (failed_exchange_is_falsy _ _ _ Hmiss Hfail) as (c' & Hrun & Hcache).
    exists c'. unfold bind. rewrite Hrun. simpl. split; [reflexivity | exact Hcache].
  - intros refresh_token access_token c' ads_client ids -> Hne Hrun Htruthy Hclient Hids Hnames.
    destruct (String.eqb_spec refresh_token EmptyString); [contradiction|].
    unfold bind, lift, ret. rewrite Hrun, Htruthy. simpl. rewrite Hclient, Hnames.
    now rewrite (account_ids_round_trip ids Hids).
Qed.

Ltac unfold_client :=
  unfold Tools.get_ads_client, st_bind, st_zoom, st_ret, st_raise, st_lift, st_get,
    st_modify in *.

(** X22: without the credentials file [get_ads_client] never yields a
    client, whatever token it is given and whatever the OAuth client or
    FastMCP could provide: it raises, the [FileNotFoundError] of line 112
    unless FastMCP's token lookup raised first, and [_ADS_CLIENT] is left
    as it was. *)
Theorem missing_credentials_file_is_fatal
        (w : client_world Cred Client) (access_token : pyval)
        (state : module_state Client) :
  isfile (base (req w)) (credentials_path (base (req w))) = false ->
  exists e state',
    get_ads_client w access_token state = (inl e, state')
    /\ _ADS_CLIENT state' = _ADS_CLIENT state
    /\ (forall fastmcp_token,
          fastmcp_get_access_token w = inr fastmcp_token ->
          e = credentials_not_found).
Proof.
  intros Hfile. unfold_client. rewrite Hfile, !andb_false_r.
  destruct (get_access_token_effect hash (req w) (oauth_client state))
    as (token & c' & -> & _).
  rewrite andb_false_r.
  destruct (fastmcp_get_access_token w) as [e|fastmcp_token].
  - exists e. eexists. split; [reflexivity|]. split; [reflexivity|]. intros ? [=].
  - exists credentials_not_found. eexists. split; [reflexivity|].
    split; [reflexivity|]. reflexivity.
Qed.

(** X23: with the credentials file in place, [get_ads_client] takes its
    token from the first source that has one: the [access_token] argument,
    without consulting anything else; else the token of the OAuth client;
    else the token FastMCP holds.  The client is built from that token and
    the developer token of the file. *)
Theorem ads_client_token_precedence
        (w : client_world Cred Client) (access_token : pyval)
        (state : module_state Client) :
  isfile (base (req w)) (credentials_path (base (req w))) = true ->
  (truthy access_token = true ->
   get_ads_client w access_token state = (client_from_token w access_token, state))
  /\ (forall dynamic_token i',
        truthy access_token = false ->
        get_access_token (req w) (oauth_client state) = (inr dynamic_token, i') ->
        (truthy dynamic_token = true ->
         get_ads_client w access_token state
         = (client_from_token w dynamic_token, set_oauth_client state i'))
        /\ (forall fastmcp_token,
              truthy dynamic_token = false ->
              fastmcp_get_access_token w = inr (Some fastmcp_token) ->
              fastmcp_token <> EmptyString ->
              get_ads_client w access_token state
              = (client_from_token w (PStr fastmcp_token), set_oauth_client state i'))).
Proof.
  intros Hfile. unfold_client. rewrite Hfile, !andb_true_r. split.
  - intros ->. reflexivity.
  - intros dynamic_token i' -> ->. split.
    + intros ->. reflexivity.
    + intros fastmcp_token -> -> Hne. simpl.
      destruct (String.eqb_spec fastmcp_token EmptyString); [contradiction | reflexivity].
Qed.

(** No token from any source: the argument, the OAuth client and FastMCP
    all come up empty, and the credentials file exists. *)
Lemma ads_client_fallback (w : client_world Cred Client) (access_token : pyval)
      (state : module_state Client) :
  no_token_available w access_token state ->
  exists i',
    fst (get_access_token (req w) (oauth_client state)) = inr PNone
    /\ snd (get_access_token (req w) (oauth_client state)) = i'
    /\ get_ads_client w access_token state
       = match _ADS_CLIENT state with
         | Some ads_client => (inr ads_client, set_oauth_client state i')
         | None =>
             match load_from_storage w (credentials_path (base (req w))) with
             | inr ads_client =>
                 (inr ads_client, set_ADS_CLIENT ads_client (set_oauth_client state i'))
             | inl e => (inl e, set_oauth_client state i')
             end
         end.
Proof.
  intros (Hfile & Harg & Hdyn & Hfast).
  destruct (OAuthInstance.get_access_token hash (req w) (oauth_client state))
    as [r i'] eqn:Hrun.
  simpl in Hdyn. subst r. exists i'. split; [reflexivity|]. split; [reflexivity|].
  unfold_client. rewrite Hfile, Harg. simpl. rewrite Hrun. simpl.
  destruct Hfast as [-> | ->]; simpl;
    (destruct (_ADS_CLIENT state); [reflexivity|]);
    destruct (load_from_storage w _); reflexivity.
Qed.

(** X24: when no source has a token and the credentials file exists,
    [get_ads_client] falls back on the stored configuration, and loads it
    once: a client already held in [_ADS_CLIENT] is returned without
    [load_from_storage] being called, and a client that is loaded is kept
    there, so that the next such call returns it again whatever
    [load_from_storage] would then do. *)
Theorem stored_client_is_loaded_once
        (w w2 : client_world Cred Client) (access_token access_token2 : pyval)
        (state : module_state Client) (ads_client : Client) :
  no_token_available w access_token state ->
  (_ADS_CLIENT state = Some ads_client
   \/ _ADS_CLIENT state = None
      /\ load_from_storage w (credentials_path (base (req w))) = inr ads_client) ->
  exists state',
    get_ads_client w access_token state = (inr ads_client, state')
    /\ _ADS_CLIENT state' = Some ads_client
    /\ (no_token_available w2 access_token2 state' ->
        fst (get_ads_client w2 access_token2 state') = inr ads_client).
Proof.
  intros Hnone Hheld.
  destruct (ads_client_fallback w access_token state Hnone) as (i' & _ & _ & Hrun).
  assert (Hfirst : exists state',
             get_ads_client w access_token state = (inr ads_client, state')
             /\ _ADS_CLIENT state' = Some ads_client).
  { rewrite Hrun. destruct Hheld as [Hsome | [Hnot Hload]].
    - rewrite Hsome. eexists. split; [reflexivity | exact Hsome].
    - rewrite Hnot, Hload. eexists. split; reflexivity. }
  destruct Hfirst as (state' & Hfirst & Hkept).
  exists state'. split; [exact Hfirst|]. split; [exact Hkept|].
  intros Hnone2.
  destruct (ads_client_fallback w2 access_token2 state' Hnone2) as (i2 & _ & _ & Hrun2).
  rewrite Hrun2, Hkept. reflexivity.
Qed.

End WithLibraries.

Example demo_accounts :
  fst (list_accessible_accounts demo_hash unit demo_accounts_world fresh_client)
  = inr ["1234567890"; "9876543210"].
Proof. reflexivity. Qed.

Example demo_explicit_token :
  fst (get_ads_client demo_hash pyval (pyval * pyval)
         (demo_client_world (demo_request_world None 1000)) (PStr "ya29.given")
         demo_module_state)
  = inr (PStr "ya29.given", PStr "dev-token").
Proof. reflexivity. Qed.

Lemma row_mapping_contents_witness :
  (forall p, In p ["campaign.id"; "campaign.status"] ->
     exists raw_value formatted_value,
       demo_get_nested_attr full_row (python_field_path p) = inr raw_value
       /\ format_value demo_message demo_to_dict demo_debug_line raw_value = inr formatted_value
       /\ ({[ "campaign.id" := VPlain (PInt 42);
              "campaign.status" := VPlain (PStr "ENABLED") ]}
             : gmap string (value demo_message)) !! p = Some formatted_value)
  /\ (forall key, ~ In key ["campaign.id"; "campaign.status"] ->
      ({[ "campaign.id" := VPlain (PInt 42);
          "campaign.status" := VPlain (PStr "ENABLED") ]}
         : gmap string (value demo_message)) !! key = None).
Proof.
  apply (row_mapping_contents demo_message demo_to_dict demo_debug_line demo_row demo_get_nested_attr
           full_row ["campaign.id"; "campaign.status"]).
  vm_compute. reflexivity.
Defined.

Lemma rows_are_returned_in_order_witness :
  exists output,
    demo_run demo_masked_stream = (inr output, demo_after).
Proof.
  apply (proj2 (rows_are_returned_in_order demo_message demo_to_dict demo_debug_line demo_hash demo_row
                  demo_get_nested_attr (demo_api_world demo_masked_stream)
                  demo_query "1234567890" None fresh_client demo_after
                  demo_masked_stream (demo_reaches _))).
  - intros b row p [<- | [<- | []]]; simpl.
    + intros [<- | []] [<- | [<- | []]]; do 2 eexists; split; reflexivity.
    + intros [<- | [<- | []]] [<- | []]; do 2 eexists; split; reflexivity.
  - reflexivity.
Defined.

Lemma other_stream_failure_propagates_witness :
  demo_run {| delivered := [ {| field_mask_paths := ["campaign.id"];
                                results := [full_row] |} ];
              failure := Some (OSError "connection reset") |}
  = (inl (OSError "connection reset"), demo_after).
Proof.
  apply (other_stream_failure_propagates demo_message demo_to_dict demo_debug_line demo_hash demo_row
           demo_get_nested_attr _ demo_query "1234567890" None fresh_client demo_after
           _ (OSError "connection reset") (demo_reaches _)).
  - intros b row p [<- | []] [<- | []] [<- | []]. do 2 eexists; split; reflexivity.
  - reflexivity.
  - reflexivity.
Defined.

Lemma cached_token_serves_query_witness :
  execute_gaql demo_message demo_to_dict demo_debug_line demo_hash demo_row demo_get_nested_attr
    (demo_api_world demo_masked_stream) demo_query "1234567890" (Some "1112223333")
    demo_cached
  = (match Api.get_ads_client (demo_api_world demo_masked_stream) (PStr "ya29.fresh") with
     | inl e => inl e
     | inr ads_client =>
         flatten demo_message demo_to_dict demo_debug_line demo_row demo_get_nested_attr
           (demo_api_world demo_masked_stream)
           (search_stream ads_client
              (if str_truthy (Some "1112223333") then Some "1112223333"
               else login_customer_id ads_client)
              (preprocess_gaql demo_query) "1234567890")
     end, demo_cached).
Proof.
  apply (cached_token_serves_query demo_message demo_to_dict demo_debug_line demo_hash demo_row
           demo_get_nested_attr (demo_api_world demo_masked_stream) demo_query
           "1234567890" (Some "1112223333") demo_cached "1//0demo-refresh"
           {| access_token := PStr "ya29.fresh";
              expires_at := 4540;
              refresh_token_hash := "1//0demo-r" |}).
  - reflexivity.
  - discriminate.
  - reflexivity.
  - simpl. lia.
  - reflexivity.
Defined.

Lemma execute_gaql_authenticates_first_witness :
  execute_gaql demo_message demo_to_dict demo_debug_line demo_hash demo_row demo_get_nested_attr
    {| get_http_headers :=
         inr (FastMCP_get_http_headers ["content-length"]
                [ ("Host", "ads.example"); ("X-OAuth-Refresh-Token", EmptyString) ]);
       oauth := demo_world 1000;
       Api.get_ads_client := fun _ => inl (FileNotFoundError "google-ads.yaml");
       str_errors := fun _ => "[]" |}
    demo_query "1234567890" None fresh_client
  = (inl (PlainException "Missing X-OAuth-Refresh-Token header for authentication"),
     fresh_client)
  /\ exists c',
       execute_gaql demo_message demo_to_dict demo_debug_line demo_hash demo_row demo_get_nested_attr
         offline_api_world demo_query "1234567890" None fresh_client
       = (inl (PlainException "Failed to generate access token from refresh token"), c')
       /\ token_cache c' = token_cache fresh_client.
Proof.
  split.
  - apply (proj1 (execute_gaql_authenticates_first demo_message demo_to_dict demo_debug_line demo_hash
                    demo_row demo_get_nested_attr _ demo_query "1234567890" None
                    fresh_client)).
    left. reflexivity.
  - apply (proj2 (execute_gaql_authenticates_first demo_message demo_to_dict demo_debug_line demo_hash
                    demo_row demo_get_nested_attr offline_api_world demo_query
                    "1234567890" None fresh_client) "1//0demo-refresh").
    + reflexivity.
    + discriminate.
    + vm_compute. exact I.
    + apply credentials_file_missing. reflexivity.
Defined.

Lemma list_accessible_accounts_returns_ids_witness :
  (exists c',
     list_accessible_accounts demo_hash unit offline_accounts_world fresh_client
     = (inl (PlainException "Failed to generate access token from refresh token"), c')
     /\ token_cache c' = token_cache fresh_client)
  /\ list_accessible_accounts demo_hash unit demo_accounts_world fresh_client
     = (inr ["1234567890"; "9876543210"], demo_after).
Proof.
  split.
  - apply (proj1 (proj2 (list_accessible_accounts_returns_ids demo_hash unit
                           offline_accounts_world fresh_client)) "1//0demo-refresh").
    + reflexivity.
    + discriminate.
    + vm_compute. exact I.
    + apply credentials_file_missing. reflexivity.
  - apply (proj2 (proj2 (list_accessible_accounts_returns_ids demo_hash unit
                           demo_accounts_world fresh_client))
             "1//0demo-refresh" (PStr "ya29.fresh") demo_after tt
             ["1234567890"; "9876543210"]).
    + reflexivity.
    + discriminate.
    + reflexivity.
    + reflexivity.
    + reflexivity.
    + repeat constructor.
    + reflexivity.
Defined.

Lemma missing_credentials_file_is_fatal_witness :
  exists e state',
    get_ads_client demo_hash pyval (pyval * pyval)
      (demo_client_world (demo_env_world None)) (PStr "ya29.given") demo_module_state
    = (inl e, state')
    /\ _ADS_CLIENT state' = _ADS_CLIENT demo_module_state
    /\ (forall fastmcp_token,
          fastmcp_get_access_token (demo_client_world (demo_env_world None))
          = inr fastmcp_token ->
          e = credentials_not_found).
Proof.
  apply (missing_credentials_file_is_fatal demo_hash pyval (pyval * pyval)
           (demo_client_world (demo_env_world None)) (PStr "ya29.given")
           demo_module_state).
  reflexivity.
Defined.

Lemma ads_client_token_precedence_witness :
  get_ads_client demo_hash pyval (pyval * pyval)
    (demo_client_world (demo_request_world None 1000)) (PStr "ya29.given")
    demo_module_state
  = (client_from_token pyval (pyval * pyval)
       (demo_client_world (demo_request_world None 1000)) (PStr "ya29.given"),
     demo_module_state)
  /\ get_ads_client demo_hash pyval (pyval * pyval)
       (fastmcp_client_world (demo_request_world None 1000)) PNone demo_module_state
     = (client_from_token pyval (pyval * pyval)
          (fastmcp_client_world (demo_request_world None 1000)) (PStr "fastmcp-token"),
        set_oauth_client demo_module_state demo_instance).
Proof.
  split.
  - apply (proj1 (ads_client_token_precedence demo_hash pyval (pyval * pyval)
                    (demo_client_world (demo_request_world None 1000))
                    (PStr "ya29.given") demo_module_state eq_refl)).
    reflexivity.
  - apply (proj2 (proj2 (ads_client_token_precedence demo_hash pyval (pyval * pyval)
                           (fastmcp_client_world (demo_request_world None 1000))
                           PNone demo_module_state eq_refl)
                    PNone demo_instance eq_refl eq_refl) "fastmcp-token");
      [reflexivity | reflexivity | discriminate].
Defined.

Lemma demo_no_token (state : module_state (pyval * pyval)) :
  oauth_client state = demo_instance ->
  no_token_available demo_hash pyval (pyval * pyval)
    (demo_client_world (demo_request_world None 1000)) PNone state.
Proof.
  intros Hstate. unfold no_token_available. rewrite Hstate.
  split; [reflexivity|]. split; [reflexivity|]. split; [reflexivity|].
  left. reflexivity.
Defined.

Lemma stored_client_is_loaded_once_witness :
  exists state',
    get_ads_client demo_hash pyval (pyval * pyval)
      (demo_client_world (demo_request_world None 1000)) PNone demo_module_state
    = (inr (PStr "stored-refresh-token", PStr "dev-token"), state')
    /\ _ADS_CLIENT state' = Some (PStr "stored-refresh-token", PStr "dev-token")
    /\ (no_token_available demo_hash pyval (pyval * pyval)
          (demo_client_world (demo_request_world None 1000)) PNone state' ->
        fst (get_ads_client demo_hash pyval (pyval * pyval)
               (demo_client_world (demo_request_world None 1000)) PNone state')
        = inr (PStr "stored-refresh-token", PStr "dev-token")).
Proof.
  apply (stored_client_is_loaded_once demo_hash pyval (pyval * pyval)
           (demo_client_world (demo_request_world None 1000))
           (demo_client_world (demo_request_world None 1000)) PNone PNone
           demo_module_state).
  - apply demo_no_token. reflexivity.
  - right. split; reflexivity.
Defined.

(** X25: preprocessing only ever appends: the query is kept as the
    beginning of the result, and the result always contains the directive.
    A query that has [PARAMETERS] and [include_drafts] but not the
    directive gets the directive appended to its parameters, without a
    second [PARAMETERS] keyword. *)
Theorem preprocess_gaql_only_appends (query : string) :
  String.prefix query (preprocess_gaql query) = true
  /\ str_in "omit_unselected_resource_names" (preprocess_gaql query) = true
  /\ (str_in "omit_unselected_resource_names" query = false ->
      str_in "PARAMETERS" query = true ->
      str_in "include_drafts" query = true ->
      preprocess_gaql query = query +:+ " omit_unselected_resource_names=true").
Proof.
  split; [|split].
  - unfold preprocess_gaql.
    destruct (negb _); [destruct (_ && _)|]; try apply prefix_refl_app.
    rewrite <- (str_app_nil_r query) at 2. apply prefix_refl_app.
  - apply preprocess_gaql_has_directive.
  - intros Hdir Hparams Hdrafts. unfold preprocess_gaql.
    now rewrite Hdir, Hparams, Hdrafts.
Qed.

Lemma preprocess_gaql_only_appends_witness :
  preprocess_gaql "SELECT campaign.id FROM campaign PARAMETERS include_drafts=true"
  = "SELECT campaign.id FROM campaign PARAMETERS include_drafts=true"
    +:+ " omit_unselected_resource_names=true".
Proof.
  apply (proj2 (proj2 (preprocess_gaql_only_appends
           "SELECT campaign.id FROM campaign PARAMETERS include_drafts=true")));
    reflexivity.
Defined.

(** X26: formatting a value that has been formatted changes nothing: the
    result of [format_value] is a plain value, or the message or enum itself
    when formatting it failed, and in both cases formatting it again gives
    it back. *)
Theorem format_value_is_idempotent
        (Message : Type) (to_dict : Message -> exc (list (string * pyval)))
        (debug_line : value Message -> exn -> exc string)
        (v formatted : value Message) :
  format_value Message to_dict debug_line v = inr formatted ->
  format_value Message to_dict debug_line formatted = inr formatted
  /\ ((exists plain, formatted = VPlain plain) \/ formatted = v).
Proof.
  intros Hf.
  assert (Hshape : (exists plain, formatted = VPlain plain) \/ formatted = v).
  { destruct (format_value_cases Message to_dict debug_line v) as [[plain Hp] | [e He]].
    - left. exists plain. congruence.
    - right. rewrite He in Hf. destruct (debug_line v e); simpl in Hf; congruence. }
  split; [|exact Hshape].
  destruct Hshape as [[plain ->] | ->]; [reflexivity | exact Hf].
Qed.

Lemma format_value_is_idempotent_witness :
  format_value demo_message demo_to_dict demo_debug_line (VPlain (PStr "ENABLED"))
  = inr (VPlain (PStr "ENABLED"))
  /\ ((exists plain, VPlain (Message := demo_message) (PStr "ENABLED") = VPlain plain)
      \/ (VPlain (PStr "ENABLED") : value demo_message) = VEnum enabled).
Proof.
  apply (format_value_is_idempotent demo_message demo_to_dict demo_debug_line (VEnum enabled)).
  reflexivity.
Defined.

End ToolsFacts.
